(** * GestureEventQueue: debounce stage and acknowledgment-ordering buffer

    A shallow embedding of
    [content/browser/renderer_host/input/gesture_event_queue.cc]
    (the second document of [src/content/renderer/p2p/mdns_responder_adapter.cc])
    together with the properties of its specification.

    The fields of the object are the fields of a record that every method
    takes and returns. The collaborators whose code is not part of the
    sources come in two forms: the fling controller and the latency trace are
    interfaces with a state of their own; the client, the timer and the debug
    log are the record of the calls made on them, and the client may call back
    with acknowledgments while it is told of one. A method ends with its
    result, with a failed [DCHECK], or with the call budget of the model used
    up; the theorems show that a budget of two nested [ProcessGestureAck]
    activations is always enough. *)

From Stdlib Require Import ZArith List Bool Lia Permutation.
Import ListNotations.

Set Implicit Arguments.

(** ** Event kinds and acknowledgment tags *)

(** Modelled from the spec: [blink::WebInputEvent::Type] is declared outside
    the sources. The enumerators named by the code are the scroll, fling and
    pinch kinds; the glossary adds "other discrete gesture kinds (taps,
    long-press, etc.)". *)
Inductive WebInputEventType : Type :=
| kGestureScrollBegin
| kGestureScrollEnd
| kGestureScrollUpdate
| kGestureFlingStart
| kGestureFlingCancel
| kGesturePinchBegin
| kGesturePinchEnd
| kGesturePinchUpdate
| kGestureTapDown
| kGestureShowPress
| kGestureTap
| kGestureTapCancel
| kGestureLongPress
| kGestureLongTap
| kGestureTwoFingerTap
| kGestureTapUnconfirmed
| kGestureDoubleTap.

Definition WebInputEventType_eq_dec (a b : WebInputEventType) : {a = b} + {a <> b}.
Proof. decide equality. Defined.

Definition type_eqb (a b : WebInputEventType) : bool :=
  if WebInputEventType_eq_dec a b then true else false.

(** Modelled from the spec: [InputEventAckState] is declared outside the
    sources; the code names [INPUT_EVENT_ACK_STATE_UNKNOWN] only, the data
    model gives the values {Unknown, Consumed, NotConsumed}. *)
Inductive InputEventAckState : Type :=
| INPUT_EVENT_ACK_STATE_UNKNOWN
| INPUT_EVENT_ACK_STATE_CONSUMED
| INPUT_EVENT_ACK_STATE_NOT_CONSUMED.

Definition is_unknown (a : InputEventAckState) : bool :=
  match a with INPUT_EVENT_ACK_STATE_UNKNOWN => true | _ => false end.

(** Modelled from the spec: [InputEventAckSource] is declared outside the
    sources; the data model calls it an optional "ack source" tag. *)
Inductive InputEventAckSource : Type :=
| ACK_SOURCE_UNKNOWN
| ACK_SOURCE_COMPOSITOR_THREAD
| ACK_SOURCE_MAIN_THREAD
| ACK_SOURCE_BROWSER.

(** Modelled from the spec: [blink::WebGestureEvent] is declared outside the
    sources; "an immutable value with a kind" and "a payload". *)
Record WebGestureEvent : Type := {
  GetType : WebInputEventType;
  payload : Z
}.

(** ** Collaborator interfaces *)

(** [ui::LatencyInfo] with its merge [AddNewLatencyFrom]. *)
Class LatencyTrace (LatencyInfo : Type) : Type := {
  AddNewLatencyFrom : LatencyInfo -> LatencyInfo -> LatencyInfo
}.

Section Events.
Variable LatencyInfo : Type.

(** Modelled from the spec: [GestureEventWithLatencyInfo] is declared outside
    the sources; the code reads its members [event] and [latency]. *)
Record GestureEventWithLatencyInfo : Type := {
  event : WebGestureEvent;
  latency : LatencyInfo
}.

(** Modelled from the spec: [GestureEventWithLatencyInfoAndAckState] is
    declared in [gesture_event_queue.h], outside the sources: the forwarded
    event "plus a mutable ack status" and "an optional ack source tag", read by
    [ack_state()] and [ack_source()] and written by [set_ack_info]. *)
Record GestureEventWithLatencyInfoAndAckState : Type := {
  info : GestureEventWithLatencyInfo;
  ack_source : InputEventAckSource;
  ack_state : InputEventAckState
}.

(** The converting constructor (lines 81-84) copies the event; the tags keep
    the initial values of their declaration, unknown ("append a new PendingAck
    (status Unknown)"). *)
Definition AwaitingAck (e : GestureEventWithLatencyInfo)
    : GestureEventWithLatencyInfoAndAckState :=
    {| info := e;
       ack_source := ACK_SOURCE_UNKNOWN;
       ack_state := INPUT_EVENT_ACK_STATE_UNKNOWN |}.

(** The arguments of one [ProcessGestureAck] call. *)
Record AckMessage : Type := {
    msg_source : InputEventAckSource;
    msg_result : InputEventAckState;
    msg_type : WebInputEventType;
    msg_latency : LatencyInfo
  }.

(** The calls the queue makes on its [GestureEventQueueClient]. *)
Inductive ClientCall : Type :=
  | SendGestureEventImmediately (e : GestureEventWithLatencyInfo)
  | OnGestureEventAck (e : GestureEventWithLatencyInfo)
                      (src : InputEventAckSource) (res : InputEventAckState).
End Events.

(** The calls the queue makes on [debounce_deferring_timer_], a
    [base::OneShotTimer] whose code is outside the sources: [Start] with a
    delay, and [Reset]. A delay is a [base::TimeDelta], a signed number of
    microseconds. *)
Inductive TimerCall : Type :=
| TimerStart (delay : Z)
| TimerReset.

(** [FlingController]: the momentum-scroll state machine. Its state is threaded
    through the calls the queue makes on it. *)
Module FlingController.
Class Interface (LatencyInfo T : Type) : Type := {
    FilterGestureEvent : GestureEventWithLatencyInfo LatencyInfo -> T -> bool * T;
    ProcessGestureFlingStart : GestureEventWithLatencyInfo LatencyInfo -> T -> T;
    ProcessGestureFlingCancel : GestureEventWithLatencyInfo LatencyInfo -> T -> T;
    fling_in_progress : T -> bool;
    StopFling : T -> T;
    RegisterFlingSchedulerObserver : T -> T;
    UnregisterFlingSchedulerObserver : T -> T
  }.
End FlingController.

(** [GestureEventQueueClient]: the queue records the calls it makes on the
    client, in order. [SendGestureEventImmediately] is fire-and-forget. While
    the client handles [OnGestureEventAck] it may hand further acknowledgments
    to [ProcessGestureAck] before it returns; [reentrant_acks] gives them as a
    function of the calls the client has received so far, the last of which is
    the one being handled. *)
Class GestureEventQueueClient (LatencyInfo : Type) : Type := {
  reentrant_acks : list (ClientCall LatencyInfo) -> list (AckMessage LatencyInfo)
}.

(** Modelled from the spec: [DCHECK_NE] and [DLOG] are macros of
    [base/logging.h], outside the sources. A failed [DCHECK] is fatal in debug
    builds and the check is compiled out of release builds; [DLOG] follows the
    same switch. *)
Class BuildFlags : Type := {
  DCHECK_IS_ON : bool
}.

(** ** Concrete collaborators, used to run the model on examples *)

Module Examples.
(** A latency trace as the list of its component ids; merging appends. *)
#[export] Instance ListLatency : LatencyTrace (list nat) :=
    {| AddNewLatencyFrom := fun mine other => mine ++ other |}.

(** A fling controller that is its own [fling_in_progress] flag: it consumes
      nothing in its filter, a fling start sets the flag, a fling cancel and
      [StopFling] clear it. *)
#[export] Instance FlagFling : FlingController.Interface (list nat) bool :=
    {| FlingController.FilterGestureEvent := fun _ f => (false, f);
       FlingController.ProcessGestureFlingStart := fun _ _ => true;
       FlingController.ProcessGestureFlingCancel := fun _ _ => false;
       FlingController.fling_in_progress := fun f => f;
       FlingController.StopFling := fun _ => false;
       FlingController.RegisterFlingSchedulerObserver := fun f => f;
       FlingController.UnregisterFlingSchedulerObserver := fun f => f |}.

(** A fling controller whose filter consumes every tap and nothing else. *)
Definition TapEatingFling : FlingController.Interface (list nat) bool :=
    {| FlingController.FilterGestureEvent := fun e f =>
         (type_eqb (GetType (event e)) kGestureTap, f);
       FlingController.ProcessGestureFlingStart := fun _ _ => true;
       FlingController.ProcessGestureFlingCancel := fun _ _ => false;
       FlingController.fling_in_progress := fun f => f;
       FlingController.StopFling := fun _ => false;
       FlingController.RegisterFlingSchedulerObserver := fun f => f;
       FlingController.UnregisterFlingSchedulerObserver := fun f => f |}.

(** A client that never calls back. *)
Definition QuietClient : GestureEventQueueClient (list nat) :=
    {| reentrant_acks := fun _ => [] |}.

(** A client that, when told of the acknowledgment of a scroll-begin,
      acknowledges a scroll-update and a scroll-end before it returns. *)
Definition EagerClient : GestureEventQueueClient (list nat) :=
    {| reentrant_acks := fun calls =>
         match rev calls with
         | OnGestureEventAck e _ _ :: _ =>
             if type_eqb (GetType (event e)) kGestureScrollBegin
             then [ {| msg_source := ACK_SOURCE_MAIN_THREAD;
                       msg_result := INPUT_EVENT_ACK_STATE_CONSUMED;
                       msg_type := kGestureScrollUpdate;
                       msg_latency := [7] |};
                    {| msg_source := ACK_SOURCE_MAIN_THREAD;
                       msg_result := INPUT_EVENT_ACK_STATE_NOT_CONSUMED;
                       msg_type := kGestureScrollEnd;
                       msg_latency := [8] |} ]
             else []
         | _ => []
         end |}.

Definition DebugBuild : BuildFlags := {| DCHECK_IS_ON := true |}.
Definition ReleaseBuild : BuildFlags := {| DCHECK_IS_ON := false |}.

Definition gesture (t : WebInputEventType) (n : Z)
    : GestureEventWithLatencyInfo (list nat) :=
    {| event := {| GetType := t; payload := n |}; latency := [] |}.

Definition ack (t : WebInputEventType) (r : InputEventAckState)
    : AckMessage (list nat) :=
    {| msg_source := ACK_SOURCE_COMPOSITOR_THREAD;
       msg_result := r; msg_type := t; msg_latency := [1] |}.
End Examples.

(** ** The queue *)

Section Queue.
Context {LatencyInfo : Type} {LT : LatencyTrace LatencyInfo}.
Context {Fling : Type} {FC : FlingController.Interface LatencyInfo Fling}.
Context {CL : GestureEventQueueClient LatencyInfo}.
Context {BF : BuildFlags}.

Abbreviation Gesture := (GestureEventWithLatencyInfo LatencyInfo).
Abbreviation Pending := (GestureEventWithLatencyInfoAndAckState LatencyInfo).
Abbreviation Ack := (AckMessage LatencyInfo).

(** The members of [GestureEventQueue] the methods read and write (their
    declarations are in [gesture_event_queue.h], outside the sources).
    [client_], [debounce_deferring_timer_] and [dlog_] hold what the queue has
    done to the client, to the timer and to the debug log: the calls made so
    far, oldest first. *)
Record GestureEventQueue : Type := {
  client_ : list (ClientCall LatencyInfo);
  scrolling_in_progress_ : bool;
  debounce_interval_ : Z;
  debounce_deferring_timer_ : list TimerCall;
  processing_acks_ : bool;
  sent_events_awaiting_ack_ : list Pending;
  debouncing_deferral_queue_ : list Gesture;
  deferred_gesture_queue_ : list Gesture;
  fling_controller_ : Fling;
  dlog_ : list WebInputEventType
}.

(** [Config]: the debounce interval and the fling controller built from
    [fling_config]. *)
Record Config : Type := {
  debounce_interval : Z;
  fling_config : Fling
}.

(** The constructor (lines 89-103). [processing_acks_] is not in the
    initialiser list: no release pass is open in a new queue. *)
Definition GestureEventQueue_new (config : Config) : GestureEventQueue :=
  {| client_ := [];
     scrolling_in_progress_ := false;
     debounce_interval_ := debounce_interval config;
     debounce_deferring_timer_ := [];
     processing_acks_ := false;
     sent_events_awaiting_ack_ := [];
     debouncing_deferral_queue_ := [];
     deferred_gesture_queue_ := [];
     fling_controller_ := fling_config config;
     dlog_ := [] |}.

(** *** Field updates *)

Definition with_client (c : list (ClientCall LatencyInfo)) (q : GestureEventQueue) :=
  {| client_ := c;
     scrolling_in_progress_ := scrolling_in_progress_ q;
     debounce_interval_ := debounce_interval_ q;
     debounce_deferring_timer_ := debounce_deferring_timer_ q;
     processing_acks_ := processing_acks_ q;
     sent_events_awaiting_ack_ := sent_events_awaiting_ack_ q;
     debouncing_deferral_queue_ := debouncing_deferral_queue_ q;
     deferred_gesture_queue_ := deferred_gesture_queue_ q;
     fling_controller_ := fling_controller_ q;
     dlog_ := dlog_ q |}.

Definition with_scrolling_in_progress (b : bool) (q : GestureEventQueue) :=
  {| client_ := client_ q;
     scrolling_in_progress_ := b;
     debounce_interval_ := debounce_interval_ q;
     debounce_deferring_timer_ := debounce_deferring_timer_ q;
     processing_acks_ := processing_acks_ q;
     sent_events_awaiting_ack_ := sent_events_awaiting_ack_ q;
     debouncing_deferral_queue_ := debouncing_deferral_queue_ q;
     deferred_gesture_queue_ := deferred_gesture_queue_ q;
     fling_controller_ := fling_controller_ q;
     dlog_ := dlog_ q |}.

Definition with_timer (t : list TimerCall) (q : GestureEventQueue) :=
  {| client_ := client_ q;
     scrolling_in_progress_ := scrolling_in_progress_ q;
     debounce_interval_ := debounce_interval_ q;
     debounce_deferring_timer_ := t;
     processing_acks_ := processing_acks_ q;
     sent_events_awaiting_ack_ := sent_events_awaiting_ack_ q;
     debouncing_deferral_queue_ := debouncing_deferral_queue_ q;
     deferred_gesture_queue_ := deferred_gesture_queue_ q;
     fling_controller_ := fling_controller_ q;
     dlog_ := dlog_ q |}.

Definition with_processing_acks (b : bool) (q : GestureEventQueue) :=
  {| client_ := client_ q;
     scrolling_in_progress_ := scrolling_in_progress_ q;
     debounce_interval_ := debounce_interval_ q;
     debounce_deferring_timer_ := debounce_deferring_timer_ q;
     processing_acks_ := b;
     sent_events_awaiting_ack_ := sent_events_awaiting_ack_ q;
     debouncing_deferral_queue_ := debouncing_deferral_queue_ q;
     deferred_gesture_queue_ := deferred_gesture_queue_ q;
     fling_controller_ := fling_controller_ q;
     dlog_ := dlog_ q |}.

Definition with_sent_events (l : list Pending) (q : GestureEventQueue) :=
  {| client_ := client_ q;
     scrolling_in_progress_ := scrolling_in_progress_ q;
     debounce_interval_ := debounce_interval_ q;
     debounce_deferring_timer_ := debounce_deferring_timer_ q;
     processing_acks_ := processing_acks_ q;
     sent_events_awaiting_ack_ := l;
     debouncing_deferral_queue_ := debouncing_deferral_queue_ q;
     deferred_gesture_queue_ := deferred_gesture_queue_ q;
     fling_controller_ := fling_controller_ q;
     dlog_ := dlog_ q |}.

Definition with_debouncing_queue (l : list Gesture) (q : GestureEventQueue) :=
  {| client_ := client_ q;
     scrolling_in_progress_ := scrolling_in_progress_ q;
     debounce_interval_ := debounce_interval_ q;
     debounce_deferring_timer_ := debounce_deferring_timer_ q;
     processing_acks_ := processing_acks_ q;
     sent_events_awaiting_ack_ := sent_events_awaiting_ack_ q;
     debouncing_deferral_queue_ := l;
     deferred_gesture_queue_ := deferred_gesture_queue_ q;
     fling_controller_ := fling_controller_ q;
     dlog_ := dlog_ q |}.

Definition with_deferred_queue (l : list Gesture) (q : GestureEventQueue) :=
  {| client_ := client_ q;
     scrolling_in_progress_ := scrolling_in_progress_ q;
     debounce_interval_ := debounce_interval_ q;
     debounce_deferring_timer_ := debounce_deferring_timer_ q;
     processing_acks_ := processing_acks_ q;
     sent_events_awaiting_ack_ := sent_events_awaiting_ack_ q;
     debouncing_deferral_queue_ := debouncing_deferral_queue_ q;
     deferred_gesture_queue_ := l;
     fling_controller_ := fling_controller_ q;
     dlog_ := dlog_ q |}.

Definition with_fling_controller (f : Fling) (q : GestureEventQueue) :=
  {| client_ := client_ q;
     scrolling_in_progress_ := scrolling_in_progress_ q;
     debounce_interval_ := debounce_interval_ q;
     debounce_deferring_timer_ := debounce_deferring_timer_ q;
     processing_acks_ := processing_acks_ q;
     sent_events_awaiting_ack_ := sent_events_awaiting_ack_ q;
     debouncing_deferral_queue_ := debouncing_deferral_queue_ q;
     deferred_gesture_queue_ := deferred_gesture_queue_ q;
     fling_controller_ := f;
     dlog_ := dlog_ q |}.

Definition with_dlog (l : list WebInputEventType) (q : GestureEventQueue) :=
  {| client_ := client_ q;
     scrolling_in_progress_ := scrolling_in_progress_ q;
     debounce_interval_ := debounce_interval_ q;
     debounce_deferring_timer_ := debounce_deferring_timer_ q;
     processing_acks_ := processing_acks_ q;
     sent_events_awaiting_ack_ := sent_events_awaiting_ack_ q;
     debouncing_deferral_queue_ := debouncing_deferral_queue_ q;
     deferred_gesture_queue_ := deferred_gesture_queue_ q;
     fling_controller_ := fling_controller_ q;
     dlog_ := l |}.

(** *** Methods as state transformers *)

(** What a method call comes to: it returns [a] and leaves the queue [q]; or a
    [DCHECK] fails and the process dies, [q] being the queue, with what the
    client had been told, at that moment; or the call budget of the model is
    used up. *)
Inductive Outcome (A : Type) : Type :=
| Done (a : A) (q : GestureEventQueue)
| DCheckFailed (q : GestureEventQueue)
| OutOfBudget.

Arguments DCheckFailed {A} q.
Arguments OutOfBudget {A}.

Definition Method (A : Type) : Type := GestureEventQueue -> Outcome A.

Definition ret {A : Type} (a : A) : Method A := fun q => Done a q.

Definition bind {A B : Type} (m : Method A) (k : A -> Method B) : Method B :=
  fun q =>
    match m q with
    | Done a q' => k a q'
    | DCheckFailed q' => DCheckFailed q'
    | OutOfBudget => OutOfBudget
    end.

Definition update (f : GestureEventQueue -> GestureEventQueue) : Method unit :=
  fun q => Done tt (f q).

Notation "x <- m ;; k" := (bind m (fun x => k))
  (at level 100, m at next level, right associativity).
Notation "m ;; k" := (bind m (fun _ => k))
  (at level 100, right associativity).

(** [DCHECK_NE(a, b)] *)
Definition DCHECK_NE (a b : WebInputEventType) : Method unit :=
  fun q => if DCHECK_IS_ON && type_eqb a b then DCheckFailed q else Done tt q.

(** [DLOG(ERROR) << ... << type] *)
Definition DLOG_ERROR (type : WebInputEventType) : Method unit :=
  update (fun q => if DCHECK_IS_ON then with_dlog (dlog_ q ++ [type]) q else q).

(** A call on [client_] that returns at once. *)
Definition call_client (c : ClientCall LatencyInfo) : Method unit :=
  update (fun q => with_client (client_ q ++ [c]) q).

(** A call on [debounce_deferring_timer_]. *)
Definition call_timer (c : TimerCall) : Method unit :=
  update (fun q => with_timer (debounce_deferring_timer_ q ++ [c]) q).

(** A call on [fling_controller_] that returns nothing. *)
Definition call_fling (f : Fling -> Fling) : Method unit :=
  update (fun q => with_fling_controller (f (fling_controller_ q)) q).

(** [fling_controller_.FilterGestureEvent(gesture_event)] *)
Definition fling_FilterGestureEvent (gesture_event : Gesture) : Method bool :=
  fun q =>
    let (consumed, f) :=
      FlingController.FilterGestureEvent gesture_event (fling_controller_ q) in
    Done consumed (with_fling_controller f q).

(** Running a method over a sequence, front to back. *)
Fixpoint for_each {A : Type} (body : A -> Method unit) (l : list A) : Method unit :=
  match l with
  | [] => ret tt
  | a :: l' => body a ;; for_each body l'
  end.

(** [ShouldForwardForBounceReduction] (lines 171-209). *)
Definition ShouldForwardForBounceReduction (gesture_event : Gesture) : Method bool :=
  fun q =>
    if (debounce_interval_ q <=? 0)%Z then Done true q
    else if FlingController.fling_in_progress (fling_controller_ q) then Done true q
    else
      match GetType (event gesture_event) with
      | kGestureScrollUpdate =>
          ((if negb (scrolling_in_progress_ q)
            then call_timer (TimerStart (debounce_interval_ q))
            else call_timer TimerReset) ;;
           update (with_scrolling_in_progress true) ;;
           update (with_debouncing_queue []) ;;
           ret true) q
      | kGesturePinchBegin
      | kGesturePinchEnd
      | kGesturePinchUpdate => Done true q
      | _ =>
          if scrolling_in_progress_ q
          then Done false
                 (with_debouncing_queue (debouncing_deferral_queue_ q ++ [gesture_event]) q)
          else Done true q
      end.

(** [ForwardGestureEvent] (lines 211-225). *)
Definition ForwardGestureEvent (gesture_event : Gesture) : Method unit :=
  DCHECK_NE (GetType (event gesture_event)) kGestureFlingStart ;;
  DCHECK_NE (GetType (event gesture_event)) kGestureFlingCancel ;;
  update (fun q =>
            with_sent_events (sent_events_awaiting_ack_ q ++ [AwaitingAck gesture_event]) q) ;;
  (if type_eqb (GetType (event gesture_event)) kGestureScrollBegin
   then call_fling FlingController.RegisterFlingSchedulerObserver
   else if type_eqb (GetType (event gesture_event)) kGestureScrollEnd
   then call_fling FlingController.UnregisterFlingSchedulerObserver
   else ret tt) ;;
  call_client (SendGestureEventImmediately gesture_event).

(** [DebounceOrForwardEvent] (lines 107-117). *)
Definition DebounceOrForwardEvent (gesture_event : Gesture) : Method bool :=
  DCHECK_NE (GetType (event gesture_event)) kGestureFlingStart ;;
  DCHECK_NE (GetType (event gesture_event)) kGestureFlingCancel ;;
  forward <- ShouldForwardForBounceReduction gesture_event ;;
  if negb forward then ret false
  else (ForwardGestureEvent gesture_event ;; ret true).

(** [FlingControllerFilterEvent] (lines 119-142). *)
Definition FlingControllerFilterEvent (gesture_event : Gesture) : Method bool :=
  consumed <- fling_FilterGestureEvent gesture_event ;;
  if consumed then ret true
  else if type_eqb (GetType (event gesture_event)) kGestureFlingStart
  then (call_fling (FlingController.ProcessGestureFlingStart gesture_event) ;; ret true)
  else if type_eqb (GetType (event gesture_event)) kGestureFlingCancel
  then (call_fling (FlingController.ProcessGestureFlingCancel gesture_event) ;; ret true)
  else ret false.

(** [QueueDeferredEvents] (lines 144-147). *)
Definition QueueDeferredEvents (gesture_event : Gesture) : Method unit :=
  update (fun q => with_deferred_queue (deferred_gesture_queue_ q ++ [gesture_event]) q).

(** [TakeDeferredEvents] (lines 149-153): the local queue is empty, the swap
    gives it the contents of the member and empties the member. *)
Definition TakeDeferredEvents : Method (list Gesture) :=
  fun q =>
    let deferred_gesture_events : list Gesture := [] in
    Done (deferred_gesture_queue_ q) (with_deferred_queue deferred_gesture_events q).

(** [StopFling] (lines 155-157). *)
Definition StopFling : Method unit :=
  call_fling FlingController.StopFling.

(** [FlingInProgressForTest] (lines 167-169). *)
Definition FlingInProgressForTest : Method bool :=
  fun q => Done (FlingController.fling_in_progress (fling_controller_ q)) q.

(** [SendScrollEndingEventsNow] (lines 281-293), the task of the timer. *)
Definition SendScrollEndingEventsNow : Method unit :=
  update (with_scrolling_in_progress false) ;;
  fun q =>
    match debouncing_deferral_queue_ q with
    | [] => Done tt q
    | debouncing_deferral_queue =>
        (update (with_debouncing_queue []) ;;
         for_each (fun it =>
                     consumed <- fling_FilterGestureEvent it ;;
                     if negb consumed then ForwardGestureEvent it else ret tt)
                  debouncing_deferral_queue) q
    end.

(** Lines 244-245: the latency of the acknowledgment is merged into the entry
    and its acknowledgment tags are set. *)
Definition set_ack_info (m : Ack) (outstanding_event : Pending) : Pending :=
  {| info := {| event := event (info outstanding_event);
                latency := AddNewLatencyFrom (latency (info outstanding_event))
                                             (msg_latency m) |};
     ack_source := msg_source m;
     ack_state := msg_result m |}.

(** The scan of lines 240-248 over [sent_events_awaiting_ack_]. *)
Fixpoint record_ack (m : Ack) (l : list Pending) : list Pending :=
  match l with
  | [] => []
  | outstanding_event :: rest =>
      if negb (is_unknown (ack_state outstanding_event))
      then outstanding_event :: record_ack m rest
      else if type_eqb (GetType (event (info outstanding_event))) (msg_type m)
      then set_ack_info m outstanding_event :: rest
      else outstanding_event :: record_ack m rest
  end.

(** [AckGestureEventToClient] (lines 269-274): the client is told, and calls
    [ProcessGestureAck] for each acknowledgment it hands back before it
    returns. *)
Definition AckGestureEventToClient (ProcessGestureAck : Ack -> Method unit)
  (event_with_latency : Gesture) (src : InputEventAckSource)
  (ack_result : InputEventAckState) : Method unit :=
  call_client (OnGestureEventAck event_with_latency src ack_result) ;;
  fun q => for_each ProcessGestureAck (reentrant_acks (client_ q)) q.

(** The loop of lines 259-266. Every turn erases one entry, [turns] bounds
    their number. *)
Fixpoint AckCompletedEvents_while (ProcessGestureAck : Ack -> Method unit)
  (turns : nat) : Method unit :=
  fun q =>
    match sent_events_awaiting_ack_ q with
    | [] => Done tt q
    | iter :: rest =>
        if is_unknown (ack_state iter) then Done tt q
        else
          match turns with
          | O => OutOfBudget
          | S turns' =>
              (update (with_sent_events rest) ;;
               AckGestureEventToClient ProcessGestureAck
                 (info iter) (ack_source iter) (ack_state iter) ;;
               AckCompletedEvents_while ProcessGestureAck turns') q
          end
    end.

(** [AckCompletedEvents] (lines 253-267), given the [ProcessGestureAck] the
    client calls back. [base::AutoReset] sets the flag and puts its old value
    back when the method returns. *)
Definition AckCompletedEvents_with (ProcessGestureAck : Ack -> Method unit)
  : Method unit :=
  fun q =>
    if processing_acks_ q then Done tt q
    else
      let old_value := processing_acks_ q in
      (update (with_processing_acks true) ;;
       AckCompletedEvents_while ProcessGestureAck
         (length (sent_events_awaiting_ack_ q)) ;;
       update (with_processing_acks old_value)) q.

(** [ProcessGestureAck] (lines 227-251). [ProcessGestureAck] calls
    [AckCompletedEvents], which calls the client, which may call
    [ProcessGestureAck]: [nesting] is the number of activations of
    [ProcessGestureAck] that may be open at the same time. *)
Fixpoint ProcessGestureAck (nesting : nat) (m : Ack) : Method unit :=
  match nesting with
  | O => fun _ => OutOfBudget
  | S nesting' =>
      fun q =>
        match sent_events_awaiting_ack_ q with
        | [] => (DLOG_ERROR (msg_type m) ;; ret tt) q
        | _ :: _ =>
            (update (fun q' => with_sent_events
                                 (record_ack m (sent_events_awaiting_ack_ q')) q') ;;
             AckCompletedEvents_with (ProcessGestureAck nesting')) q
        end
  end.

(** [AckCompletedEvents] with the nesting left to the client's calls. *)
Definition AckCompletedEvents (nesting : nat) : Method unit :=
  AckCompletedEvents_with (ProcessGestureAck nesting).

(** *** Sequences of calls *)

(** The entry points of the queue: its public methods, and the firing of
    [debounce_deferring_timer_], which runs [SendScrollEndingEventsNow]. *)
Inductive Call : Type :=
| CallFlingControllerFilterEvent (e : Gesture)
| CallDebounceOrForwardEvent (e : Gesture)
| CallQueueDeferredEvents (e : Gesture)
| CallTakeDeferredEvents
| CallStopFling
| CallProcessGestureAck (m : Ack)
| TimerFires.

Definition perform (nesting : nat) (c : Call) : Method unit :=
  match c with
  | CallFlingControllerFilterEvent e => FlingControllerFilterEvent e ;; ret tt
  | CallDebounceOrForwardEvent e => DebounceOrForwardEvent e ;; ret tt
  | CallQueueDeferredEvents e => QueueDeferredEvents e
  | CallTakeDeferredEvents => TakeDeferredEvents ;; ret tt
  | CallStopFling => StopFling
  | CallProcessGestureAck m => ProcessGestureAck nesting m
  | TimerFires => SendScrollEndingEventsNow
  end.

Definition perform_all (nesting : nat) (cs : list Call) : Method unit :=
  for_each (perform nesting) cs.

(** *** What the client has been told *)

(** The [OnGestureEventAck] calls of a client history: event and
    acknowledgment state of each, oldest first. *)
Fixpoint acks_reported (calls : list (ClientCall LatencyInfo))
  : list (WebGestureEvent * InputEventAckState) :=
  match calls with
  | [] => []
  | OnGestureEventAck e _ res :: calls' => (event e, res) :: acks_reported calls'
  | SendGestureEventImmediately _ :: calls' => acks_reported calls'
  end.

(** The events of its [SendGestureEventImmediately] calls. *)
Fixpoint sent_events (calls : list (ClientCall LatencyInfo)) : list Gesture :=
  match calls with
  | [] => []
  | SendGestureEventImmediately e :: calls' => e :: sent_events calls'
  | OnGestureEventAck _ _ _ :: calls' => sent_events calls'
  end.

(** The events held by the buffer, front to back. *)
Definition buffered_events (l : list Pending) : list WebGestureEvent :=
  map (fun p => event (info p)) l.

(** The call that reports a released entry. *)
Definition report_of (p : Pending) : ClientCall LatencyInfo :=
  OnGestureEventAck (info p) (ack_source p) (ack_state p).

(** The release loop has nothing left to do: the buffer is empty or its front
    entry is still unknown. *)
Definition drained (l : list Pending) : Prop :=
  match l with
  | [] => True
  | p :: _ => is_unknown (ack_state p) = true
  end.

(** An entry waits for the acknowledgment [m]: its state is unknown and its
    kind is the kind of [m]. *)
Definition awaits (m : Ack) (p : Pending) : bool :=
  is_unknown (ack_state p) && type_eqb (GetType (event (info p))) (msg_type m).

(** What acknowledgments may do to an entry that stays in the buffer: the
    event is the same, and an entry whose state is known is not touched. *)
Definition ack_step (p p' : Pending) : Prop :=
  event (info p) = event (info p') /\
  (is_unknown (ack_state p) = false -> p' = p).

Definition evolves (l l' : list Pending) : Prop := Forall2 ack_step l l'.

(** A [ProcessGestureAck] that runs while a release pass is open: the scan,
    and nothing else. *)
Definition reentered (m : Ack) (q : GestureEventQueue) : GestureEventQueue :=
  match sent_events_awaiting_ack_ q with
  | [] => if DCHECK_IS_ON then with_dlog (dlog_ q ++ [msg_type m]) q else q
  | _ :: _ => with_sent_events (record_ack m (sent_events_awaiting_ack_ q)) q
  end.

(** The fields the acknowledgment path does not write. *)
Definition same_debounce_state (q q' : GestureEventQueue) : Prop :=
  scrolling_in_progress_ q' = scrolling_in_progress_ q /\
  debounce_interval_ q' = debounce_interval_ q /\
  debounce_deferring_timer_ q' = debounce_deferring_timer_ q /\
  debouncing_deferral_queue_ q' = debouncing_deferral_queue_ q /\
  deferred_gesture_queue_ q' = deferred_gesture_queue_ q /\
  fling_controller_ q' = fling_controller_ q.

Unset Implicit Arguments.

(** *** Notions used in the statements *)

(** What a release pass makes of the buffer [buf] and of the client history
    [calls]: a front part of the buffer is reported, every entry with a known
    state and in buffer order; the rest stays, in order. In between,
    acknowledgments that came in may have set states that were unknown. *)
Definition releases (buf : list Pending) (calls : list (ClientCall LatencyInfo))
  (q' : GestureEventQueue) : Prop :=
  exists pre post rel,
    buf = pre ++ post /\
    evolves pre rel /\
    Forall (fun p => is_unknown (ack_state p) = false) rel /\
    evolves post (sent_events_awaiting_ack_ q') /\
    client_ q' = calls ++ map report_of rel.

(** The kinds the fling controller keeps for itself. *)
Definition is_fling_kind (t : WebInputEventType) : bool :=
  type_eqb t kGestureFlingStart || type_eqb t kGestureFlingCancel.

(** Lines 218-223: what forwarding an event does to the fling controller. *)
Definition observe_scroll (e : Gesture) (f : Fling) : Fling :=
  if type_eqb (GetType (event e)) kGestureScrollBegin
  then FlingController.RegisterFlingSchedulerObserver f
  else if type_eqb (GetType (event e)) kGestureScrollEnd
  then FlingController.UnregisterFlingSchedulerObserver f
  else f.

(** The queue after [e] has been forwarded. *)
Definition forwarded (e : Gesture) (q : GestureEventQueue) : GestureEventQueue :=
  with_client (client_ q ++ [SendGestureEventImmediately e])
    (with_fling_controller (observe_scroll e (fling_controller_ q))
       (with_sent_events (sent_events_awaiting_ack_ q ++ [AwaitingAck e]) q)).

(** The state of the bookkeeping between two acknowledgments: [es] are the
    events forwarded, [base] what the client had been told before, [settled]
    the kinds acknowledged so far with a known result. *)
Definition in_order (base : list (WebGestureEvent * InputEventAckState))
  (es : list WebGestureEvent) (settled : list WebInputEventType)
  (q : GestureEventQueue) : Prop :=
  processing_acks_ q = false /\
  drained (sent_events_awaiting_ack_ q) /\
  (exists rel,
      acks_reported (client_ q) = base ++ rel /\
      map fst rel ++ buffered_events (sent_events_awaiting_ack_ q) = es /\
      Forall (fun r => is_unknown (snd r) = false) rel) /\
  (forall p, In p (sent_events_awaiting_ack_ q) ->
             In (GetType (event (info p))) settled ->
             is_unknown (ack_state p) = false).

(** The spec's words for the timer firing with a non-empty debouncing queue:
    "drain it in order, re-running the fling pre-filter on each and forwarding
    the rest". [drain dq f] gives the events forwarded, in order, and the
    fling controller afterwards. *)
Fixpoint drain (dq : list Gesture) (f : Fling) : list Gesture * Fling :=
  match dq with
  | [] => ([], f)
  | e :: dq' =>
      let (consumed, f1) := FlingController.FilterGestureEvent e f in
      if consumed then drain dq' f1
      else let (es, f2) := drain dq' (observe_scroll e f1) in (e :: es, f2)
  end.

(** The fields forwarding does not write. *)
Definition same_but_forwarding (q q' : GestureEventQueue) : Prop :=
  scrolling_in_progress_ q' = scrolling_in_progress_ q /\
  debounce_interval_ q' = debounce_interval_ q /\
  debounce_deferring_timer_ q' = debounce_deferring_timer_ q /\
  processing_acks_ q' = processing_acks_ q /\
  debouncing_deferral_queue_ q' = debouncing_deferral_queue_ q /\
  deferred_gesture_queue_ q' = deferred_gesture_queue_ q /\
  dlog_ q' = dlog_ q.

Definition no_fling_kind (dq : list Gesture) : Prop :=
  Forall (fun e => is_fling_kind (GetType (event e)) = false) dq.

(** The state of the queue when no method is running: no release pass is
    open, the release loop has nothing left to do, debouncing is only active
    under a positive interval, and in a build that checks, no fling kind sits
    in the debouncing queue. *)
Definition steady (q : GestureEventQueue) : Prop :=
  processing_acks_ q = false /\
  drained (sent_events_awaiting_ack_ q) /\
  (scrolling_in_progress_ q = true -> (0 < debounce_interval_ q)%Z) /\
  (DCHECK_IS_ON = true -> no_fling_kind (debouncing_deferral_queue_ q)).

(** The queues reached from a new queue by a sequence of calls. *)
Definition reachable (q : GestureEventQueue) : Prop :=
  exists config calls nesting,
    2 <= nesting /\
    perform_all nesting calls (GestureEventQueue_new config) = Done tt q.

(** The side queue after a sequence of calls, from the calls alone. *)
Definition stash (c : Call) (side : list Gesture) : list Gesture :=
  match c with
  | CallQueueDeferredEvents e => side ++ [e]
  | CallTakeDeferredEvents => []
  | _ => side
  end.

Definition stash_all (cs : list Call) (side : list Gesture) : list Gesture :=
  fold_left (fun s c => stash c s) cs side.

(** The events of the [QueueDeferredEvents] calls of a sequence, in order. *)
Fixpoint stashed_in (cs : list Call) : list Gesture :=
  match cs with
  | [] => []
  | CallQueueDeferredEvents e :: cs' => e :: stashed_in cs'
  | _ :: cs' => stashed_in cs'
  end.

(** *** Notions used in the further properties *)

(** The pinch kinds of lines 198-200. *)
Definition is_pinch_kind (t : WebInputEventType) : bool :=
  type_eqb t kGesturePinchBegin || type_eqb t kGesturePinchEnd
  || type_eqb t kGesturePinchUpdate.

(** The books of the queue balance: the events sent to the client are, in the
    order they were sent, the events the client has been told of followed by
    the events in the buffer, and every state the client was told is known. *)
Definition accounted (q : GestureEventQueue) : Prop :=
  map (@event _) (sent_events (client_ q))
  = map fst (acks_reported (client_ q))
      ++ buffered_events (sent_events_awaiting_ack_ q) /\
  Forall (fun r => is_unknown (snd r) = false) (acks_reported (client_ q)).

(** The debounce stage is consistent: events are held only while the flag is
    set, the flag is set only after the timer was started, the timer was first
    started and never reset before, and every start was for the positive
    debounce interval. *)
Definition debounce_consistent (q : GestureEventQueue) : Prop :=
  (scrolling_in_progress_ q = false -> debouncing_deferral_queue_ q = []) /\
  (scrolling_in_progress_ q = true -> debounce_deferring_timer_ q <> []) /\
  (debounce_deferring_timer_ q <> [] ->
   (0 < debounce_interval_ q)%Z /\
   hd TimerReset (debounce_deferring_timer_ q) = TimerStart (debounce_interval_ q)) /\
  Forall (fun c => c = TimerReset \/ c = TimerStart (debounce_interval_ q))
         (debounce_deferring_timer_ q).

(** The report of the event [e] acknowledged by [m]. *)
Definition report_acknowledged (e : Gesture) (m : Ack) : ClientCall LatencyInfo :=
  OnGestureEventAck
    {| event := event e; latency := AddNewLatencyFrom (latency e) (msg_latency m) |}
    (msg_source m) (msg_result m).

(** ** Facts about the scan *)

Lemma type_eqb_eq (a b : WebInputEventType) : type_eqb a b = true <-> a = b.
Proof.
  unfold type_eqb. destruct (WebInputEventType_eq_dec a b); split; congruence.
Qed.

Lemma type_eqb_neq (a b : WebInputEventType) : type_eqb a b = false <-> a <> b.
Proof.
  unfold type_eqb. destruct (WebInputEventType_eq_dec a b); split; congruence.
Qed.

Lemma ack_step_refl (p : Pending) : ack_step p p.
Proof. split; auto. Qed.

Lemma ack_step_trans (p1 p2 p3 : Pending) :
  ack_step p1 p2 -> ack_step p2 p3 -> ack_step p1 p3.
Proof.
  intros [E12 K12] [E23 K23]. split.
  - congruence.
  - intros K. specialize (K12 K). subst p2. auto.
Qed.

Lemma evolves_refl (l : list Pending) : evolves l l.
Proof. induction l; constructor; auto using ack_step_refl. Qed.

Lemma evolves_trans (l1 l2 l3 : list Pending) :
  evolves l1 l2 -> evolves l2 l3 -> evolves l1 l3.
Proof.
  intros H. revert l3. induction H; intros l3 H3; inversion H3; subst.
  - constructor.
  - constructor; eauto using ack_step_trans. apply IHForall2. assumption.
Qed.

Lemma evolves_events (l l' : list Pending) :
  evolves l l' -> buffered_events l' = buffered_events l.
Proof.
  induction 1 as [|p p' l l' [E _] _ IH]; simpl; [reflexivity|].
  rewrite IH, E. reflexivity.
Qed.

Lemma evolves_length (l l' : list Pending) : evolves l l' -> length l' = length l.
Proof. intros H. symmetry. exact (Forall2_length H). Qed.

Lemma set_ack_info_step (m : Ack) (p : Pending) :
  is_unknown (ack_state p) = true -> ack_step p (set_ack_info m p).
Proof. intros U. split; [reflexivity | congruence]. Qed.

Lemma record_ack_evolves (m : Ack) (l : list Pending) : evolves l (record_ack m l).
Proof.
  induction l as [|p l IH]; simpl; [constructor|].
  destruct (is_unknown (ack_state p)) eqn:U; simpl.
  - destruct (type_eqb _ _).
    + constructor; [apply set_ack_info_step; assumption | apply evolves_refl].
    + constructor; [apply ack_step_refl | exact IH].
  - constructor; [apply ack_step_refl | exact IH].
Qed.

Lemma record_ack_first_match (m : Ack) (pre post : list Pending) (p : Pending) :
  Forall (fun x => awaits m x = false) pre ->
  awaits m p = true ->
  record_ack m (pre ++ p :: post) = pre ++ set_ack_info m p :: post.
Proof.
  unfold awaits. induction 1 as [|x pre Hx _ IH]; intros Hp; simpl.
  - apply andb_true_iff in Hp. destruct Hp as [-> ->]. reflexivity.
  - rewrite (IH Hp). destruct (is_unknown (ack_state x)); simpl in *.
    + rewrite Hx. reflexivity.
    + reflexivity.
Qed.

Lemma record_ack_no_match (m : Ack) (l : list Pending) :
  Forall (fun x => awaits m x = false) l -> record_ack m l = l.
Proof.
  unfold awaits. induction 1 as [|x l Hx _ IH]; simpl; [reflexivity|].
  rewrite IH. destruct (is_unknown (ack_state x)); simpl in *.
  - rewrite Hx. reflexivity.
  - reflexivity.
Qed.

(** After the scan for a known result, with pairwise distinct kinds in the
    buffer, no entry of the kind of the acknowledgment is unknown. *)
Lemma record_ack_settles (m : Ack) (l : list Pending) :
  is_unknown (msg_result m) = false ->
  NoDup (map GetType (buffered_events l)) ->
  forall p, In p (record_ack m l) ->
            GetType (event (info p)) = msg_type m ->
            is_unknown (ack_state p) = false.
Proof.
  intros K. induction l as [|o l IH]; simpl; intros ND p Hin Hk; [contradiction|].
  inversion ND as [|? ? Hnotin ND']; subst.
  destruct (is_unknown (ack_state o)) eqn:U; simpl in Hin.
  - destruct (type_eqb (GetType (event (info o))) (msg_type m)) eqn:T.
    + destruct Hin as [<-|Hin]; [exact K|].
      exfalso. apply Hnotin. apply type_eqb_eq in T. rewrite T, <- Hk.
      unfold buffered_events. rewrite map_map. apply in_map_iff. eauto.
    + destruct Hin as [<-|Hin]; [|eauto].
      apply type_eqb_neq in T. contradiction.
  - destruct Hin as [<-|Hin]; [assumption | eauto].
Qed.

(** ** Facts about the release pass *)

Lemma same_debounce_state_refl (q : GestureEventQueue) : same_debounce_state q q.
Proof. repeat split. Qed.

Lemma same_debounce_state_trans (q1 q2 q3 : GestureEventQueue) :
  same_debounce_state q1 q2 -> same_debounce_state q2 q3 -> same_debounce_state q1 q3.
Proof.
  unfold same_debounce_state. intros (A1 & A2 & A3 & A4 & A5 & A6) (B1 & B2 & B3 & B4 & B5 & B6).
  repeat split; congruence.
Qed.

Lemma reentered_facts (m : Ack) (q : GestureEventQueue) :
  processing_acks_ (reentered m q) = processing_acks_ q /\
  client_ (reentered m q) = client_ q /\
  evolves (sent_events_awaiting_ack_ q) (sent_events_awaiting_ack_ (reentered m q)) /\
  same_debounce_state q (reentered m q).
Proof.
  unfold reentered. destruct (sent_events_awaiting_ack_ q) as [|p l] eqn:E.
  - destruct DCHECK_IS_ON; simpl; rewrite ?E;
      repeat split; auto using evolves_refl; constructor.
  - cbn -[record_ack]. repeat split; auto. apply record_ack_evolves.
Qed.

Lemma ProcessGestureAck_reentered (n : nat) (m : Ack) (q : GestureEventQueue) :
  processing_acks_ q = true ->
  ProcessGestureAck (S n) m q = Done tt (reentered m q).
Proof.
  intros P. unfold reentered. simpl.
  destruct (sent_events_awaiting_ack_ q) as [|p l] eqn:E.
  - reflexivity.
  - unfold bind, update, AckCompletedEvents_with. simpl. rewrite P, E. reflexivity.
Qed.

Lemma for_each_reentered (n : nat) (ms : list Ack) :
  forall q, processing_acks_ q = true ->
  exists q', for_each (ProcessGestureAck (S n)) ms q = Done tt q' /\
             processing_acks_ q' = true /\
             client_ q' = client_ q /\
             evolves (sent_events_awaiting_ack_ q) (sent_events_awaiting_ack_ q') /\
             same_debounce_state q q'.
Proof.
  induction ms as [|m ms IH]; intros q P; cbn [for_each].
  - exists q. unfold ret. repeat split; auto using evolves_refl.
  - unfold bind. rewrite ProcessGestureAck_reentered by assumption.
    destruct (reentered_facts m q) as (P1 & C1 & E1 & S1).
    destruct (IH (reentered m q)) as (q' & R & P2 & C2 & E2 & S2); [congruence|].
    exists q'. rewrite R. split; [reflexivity|]. split; [assumption|].
    split; [congruence|]. split.
    + eapply evolves_trans; eassumption.
    + eapply same_debounce_state_trans; eassumption.
Qed.

Lemma releases_nothing (q : GestureEventQueue) :
  releases (sent_events_awaiting_ack_ q) (client_ q) q.
Proof.
  exists [], (sent_events_awaiting_ack_ q), []. simpl. rewrite app_nil_r.
  split; [reflexivity|]. split; [constructor|]. split; [constructor|].
  split; [apply evolves_refl | reflexivity].
Qed.

Lemma AckCompletedEvents_while_releases (n : nat) :
  forall turns q,
    processing_acks_ q = true ->
    length (sent_events_awaiting_ack_ q) <= turns ->
    exists q',
      AckCompletedEvents_while (ProcessGestureAck (S n)) turns q = Done tt q' /\
      releases (sent_events_awaiting_ack_ q) (client_ q) q' /\
      drained (sent_events_awaiting_ack_ q') /\
      processing_acks_ q' = true /\
      same_debounce_state q q'.
Proof.
  assert (Stop : forall turns q,
             processing_acks_ q = true ->
             drained (sent_events_awaiting_ack_ q) ->
             exists q',
               AckCompletedEvents_while (ProcessGestureAck (S n)) turns q = Done tt q' /\
               releases (sent_events_awaiting_ack_ q) (client_ q) q' /\
               drained (sent_events_awaiting_ack_ q') /\
               processing_acks_ q' = true /\
               same_debounce_state q q').
  { intros turns q P D. exists q. split.
    - destruct turns; cbn [AckCompletedEvents_while]; unfold drained in D;
        destruct (sent_events_awaiting_ack_ q); try reflexivity; rewrite D; reflexivity.
    - split; [apply releases_nothing|]. split; [exact D|].
      split; [exact P | apply same_debounce_state_refl]. }
  induction turns as [|turns IH]; intros q P L.
  - apply Stop; [exact P|].
    destruct (sent_events_awaiting_ack_ q); [exact I | simpl in L; lia].
  - destruct (sent_events_awaiting_ack_ q) as [|iter rest] eqn:E.
    { rewrite <- E. apply Stop; [exact P | rewrite E; exact I]. }
    destruct (is_unknown (ack_state iter)) eqn:U.
    { rewrite <- E. apply Stop; [exact P | rewrite E; exact U]. }
    cbn [AckCompletedEvents_while]. rewrite E, U.
    unfold bind at 1. unfold update at 1.
    unfold bind at 1. unfold AckGestureEventToClient.
    unfold bind at 1. unfold call_client at 1. unfold update at 1.
    set (q1 := with_client _ (with_sent_events rest q)).
    destruct (for_each_reentered n (reentrant_acks (client_ q1)) q1)
      as (q2 & R2 & P2 & C2 & E2 & S2); [exact P|].
    rewrite R2.
    destruct (IH q2) as (q' & R' & (pre & post & rel & B & Epre & K & Epost & C') & D & P' & S');
      [exact P2 | |].
    { rewrite (evolves_length _ _ E2). subst q1. simpl in *. lia. }
    exists q'. split; [exact R'|]. split; [|split; [exact D|split; [exact P'|]]].
    + subst q1. cbn [with_client with_sent_events sent_events_awaiting_ack_ client_] in *.
      rewrite B in E2.
      apply Forall2_app_inv_r in E2.
      destruct E2 as (pre0 & post0 & Hpre0 & Hpost0 & ->).
      exists (iter :: pre0), post0, (iter :: rel).
      split; [reflexivity|]. split.
      { constructor; [apply ack_step_refl|]. eapply evolves_trans; eassumption. }
      split; [constructor; assumption|]. split.
      { eapply evolves_trans; eassumption. }
      rewrite C', C2. simpl. rewrite <- app_assoc. reflexivity.
    + eapply same_debounce_state_trans; [|exact S'].
      eapply same_debounce_state_trans; [|exact S2].
      subst q1. repeat split.
Qed.

Lemma AckCompletedEvents_pass (n : nat) (q : GestureEventQueue) :
  processing_acks_ q = false ->
  exists q',
    AckCompletedEvents (S n) q = Done tt q' /\
    releases (sent_events_awaiting_ack_ q) (client_ q) q' /\
    drained (sent_events_awaiting_ack_ q') /\
    processing_acks_ q' = false /\
    same_debounce_state q q'.
Proof.
  intros P. unfold AckCompletedEvents, AckCompletedEvents_with. rewrite P.
  unfold bind at 1. unfold update at 1. unfold bind at 1.
  destruct (AckCompletedEvents_while_releases n
              (length (sent_events_awaiting_ack_ q)) (with_processing_acks true q))
    as (q1 & R & Rel & D & P1 & S1); [reflexivity | simpl; lia |].
  rewrite R. unfold update. exists (with_processing_acks false q1).
  split; [reflexivity|]. split; [|split; [exact D|split; [reflexivity|]]].
  - destruct Rel as (pre & post & rel & B & Epre & K & Epost & C).
    exists pre, post, rel. auto.
  - destruct S1 as (A1 & A2 & A3 & A4 & A5 & A6). repeat split; assumption.
Qed.

Lemma ProcessGestureAck_pass (n : nat) (m : Ack) (q : GestureEventQueue) :
  processing_acks_ q = false ->
  exists q',
    ProcessGestureAck (S (S n)) m q = Done tt q' /\
    releases (record_ack m (sent_events_awaiting_ack_ q)) (client_ q) q' /\
    drained (sent_events_awaiting_ack_ q') /\
    processing_acks_ q' = false /\
    same_debounce_state q q'.
Proof.
  intros P. cbn [ProcessGestureAck].
  destruct (sent_events_awaiting_ack_ q) as [|p l] eqn:E.
  - unfold bind, DLOG_ERROR, update, ret.
    eexists. split; [reflexivity|].
    assert (F : forall q0 : GestureEventQueue,
               sent_events_awaiting_ack_ (if DCHECK_IS_ON then with_dlog (dlog_ q ++ [msg_type m]) q0 else q0)
               = sent_events_awaiting_ack_ q0) by (intros; destruct DCHECK_IS_ON; reflexivity).
    split; [|split; [rewrite F, E; exact I|split]].
    + exists [], [], []. cbn [record_ack app map]. rewrite F, E, app_nil_r.
      split; [reflexivity|]. split; [constructor|]. split; [constructor|].
      split; [constructor|]. destruct DCHECK_IS_ON; reflexivity.
    + destruct DCHECK_IS_ON; assumption.
    + destruct DCHECK_IS_ON; repeat split.
  - unfold bind at 1. unfold update at 1.
    rewrite <- E.
    set (q1 := with_sent_events (record_ack m (sent_events_awaiting_ack_ q)) q).
    destruct (AckCompletedEvents_pass n q1) as (q' & R & Rel & D & P' & S'); [exact P|].
    exists q'. split; [exact R|]. split; [exact Rel|]. split; [exact D|].
    split; [exact P'|]. exact S'.
Qed.

(** The budget is no part of the behaviour: more than two activations change
    nothing. *)
Lemma for_each_reentered_budget (n n' : nat) (ms : list Ack) :
  forall q, processing_acks_ q = true ->
  for_each (ProcessGestureAck (S n)) ms q = for_each (ProcessGestureAck (S n')) ms q.
Proof.
  induction ms as [|m ms IH]; intros q P; cbn [for_each]; [reflexivity|].
  unfold bind. rewrite !ProcessGestureAck_reentered by assumption.
  apply IH. destruct (reentered_facts m q) as (-> & _). exact P.
Qed.

Lemma AckCompletedEvents_while_budget (n n' : nat) :
  forall turns q, processing_acks_ q = true ->
  AckCompletedEvents_while (ProcessGestureAck (S n)) turns q
  = AckCompletedEvents_while (ProcessGestureAck (S n')) turns q.
Proof.
  induction turns as [|turns IH]; intros q P; cbn [AckCompletedEvents_while];
    destruct (sent_events_awaiting_ack_ q) as [|iter rest]; try reflexivity.
  destruct (is_unknown (ack_state iter)); [reflexivity|].
  unfold bind, AckGestureEventToClient, bind, call_client, update.
  set (q1 := with_client _ (with_sent_events rest q)).
  rewrite (for_each_reentered_budget n n' _ q1 P).
  destruct (for_each_reentered n' (reentrant_acks (client_ q1)) q1 P) as (q2 & -> & P2 & _).
  apply IH. exact P2.
Qed.

Lemma ProcessGestureAck_budget (n : nat) (m : Ack) (q : GestureEventQueue) :
  2 <= n ->
  ProcessGestureAck n m q = ProcessGestureAck 2 m q.
Proof.
  intros L. destruct n as [|[|n]]; try lia. clear L.
  destruct (processing_acks_ q) eqn:P.
  - rewrite !ProcessGestureAck_reentered by assumption. reflexivity.
  - cbn [ProcessGestureAck]. destruct (sent_events_awaiting_ack_ q) as [|p l]; [reflexivity|].
    unfold bind, update, AckCompletedEvents_with.
    cbn [with_sent_events processing_acks_]. rewrite P.
    unfold bind, update.
    rewrite (AckCompletedEvents_while_budget n 0) by reflexivity. reflexivity.
Qed.

Lemma releases_order (buf : list Pending) (calls : list (ClientCall LatencyInfo))
  (q' : GestureEventQueue) :
  releases buf calls q' ->
  exists rel,
    client_ q' = calls ++ map report_of rel /\
    Forall (fun p => is_unknown (ack_state p) = false) rel /\
    buffered_events rel ++ buffered_events (sent_events_awaiting_ack_ q')
    = buffered_events buf.
Proof.
  intros (pre & post & rel & B & Epre & K & Epost & C).
  exists rel. split; [exact C|]. split; [exact K|].
  rewrite (evolves_events _ _ Epre), (evolves_events _ _ Epost), B.
  unfold buffered_events. rewrite map_app. reflexivity.
Qed.

(** ** Facts about forwarding *)

Lemma ForwardGestureEvent_eq (e : Gesture) (q : GestureEventQueue) :
  ForwardGestureEvent e q =
  if DCHECK_IS_ON && is_fling_kind (GetType (event e)) then DCheckFailed q
  else Done tt (forwarded e q).
Proof.
  unfold ForwardGestureEvent, is_fling_kind, forwarded, observe_scroll.
  unfold bind, DCHECK_NE, call_client, call_fling, update, ret.
  destruct DCHECK_IS_ON;
    destruct (type_eqb (GetType (event e)) kGestureFlingStart);
    destruct (type_eqb (GetType (event e)) kGestureFlingCancel);
    destruct (type_eqb (GetType (event e)) kGestureScrollBegin);
    destruct (type_eqb (GetType (event e)) kGestureScrollEnd);
    cbn; reflexivity.
Qed.

Lemma forwarded_fields (e : Gesture) (q : GestureEventQueue) :
  sent_events_awaiting_ack_ (forwarded e q) = sent_events_awaiting_ack_ q ++ [AwaitingAck e] /\
  client_ (forwarded e q) = client_ q ++ [SendGestureEventImmediately e] /\
  processing_acks_ (forwarded e q) = processing_acks_ q /\
  scrolling_in_progress_ (forwarded e q) = scrolling_in_progress_ q /\
  debounce_interval_ (forwarded e q) = debounce_interval_ q /\
  debounce_deferring_timer_ (forwarded e q) = debounce_deferring_timer_ q /\
  debouncing_deferral_queue_ (forwarded e q) = debouncing_deferral_queue_ q /\
  deferred_gesture_queue_ (forwarded e q) = deferred_gesture_queue_ q /\
  fling_controller_ (forwarded e q) = observe_scroll e (fling_controller_ q) /\
  dlog_ (forwarded e q) = dlog_ q.
Proof. repeat split. Qed.

Lemma acks_reported_app (c1 c2 : list (ClientCall LatencyInfo)) :
  acks_reported (c1 ++ c2) = acks_reported c1 ++ acks_reported c2.
Proof.
  induction c1 as [|[e|e src res] c1 IH]; simpl; [reflexivity|exact IH|].
  rewrite IH. reflexivity.
Qed.

Lemma acks_reported_reports (rel : list Pending) :
  acks_reported (map report_of rel)
  = map (fun p => (event (info p), ack_state p)) rel.
Proof. induction rel as [|p rel IH]; simpl; [reflexivity|]. rewrite IH. reflexivity. Qed.

(** Forwarding a sequence of events from a queue with an empty buffer. *)
Lemma forward_all_fields (es : list Gesture) :
  forall q q',
    for_each ForwardGestureEvent es q = Done tt q' ->
    sent_events_awaiting_ack_ q' = sent_events_awaiting_ack_ q ++ map (@AwaitingAck _) es /\
    client_ q' = client_ q ++ map (@SendGestureEventImmediately _) es /\
    processing_acks_ q' = processing_acks_ q.
Proof.
  induction es as [|e es IH]; intros q q' R; cbn [for_each] in R.
  - unfold ret in R. inversion R; subst. simpl. rewrite !app_nil_r. auto.
  - unfold bind in R. rewrite ForwardGestureEvent_eq in R.
    destruct (DCHECK_IS_ON && is_fling_kind (GetType (event e))); [discriminate|].
    apply IH in R. destruct R as (B & C & P).
    destruct (forwarded_fields e q) as (B0 & C0 & P0 & _).
    rewrite B, C, P, B0, C0, P0. simpl. rewrite <- !app_assoc. auto.
Qed.

(** ** Facts about a run of acknowledgments *)

Lemma evolves_in_r (l l' : list Pending) (p' : Pending) :
  evolves l l' -> In p' l' -> exists p, In p l /\ ack_step p p'.
Proof.
  induction 1 as [|x x' l l' Hx _ IH]; simpl; intros Hin; [contradiction|].
  destruct Hin as [<-|Hin]; [eauto|].
  destruct (IH Hin) as (p & Hp & S). eauto.
Qed.

Lemma NoDup_app_tail {A : Type} (l1 l2 : list A) : NoDup (l1 ++ l2) -> NoDup l2.
Proof.
  induction l1 as [|a l1 IH]; simpl; [auto|].
  intros H. inversion H; auto.
Qed.

Lemma in_order_step (n : nat) (base : list (WebGestureEvent * InputEventAckState))
  (es : list WebGestureEvent) (settled : list WebInputEventType)
  (m : Ack) (q : GestureEventQueue) :
  NoDup (map GetType es) ->
  is_unknown (msg_result m) = false ->
  in_order base es settled q ->
  exists q',
    ProcessGestureAck (S (S n)) m q = Done tt q' /\
    in_order base es (msg_type m :: settled) q'.
Proof.
  intros ND K (P & D & (rel & Rep & Seq & Known) & Settled).
  destruct (ProcessGestureAck_pass n m q P)
    as (q' & R & (pre & post & rel' & B & Epre & K' & Epost & C) & D' & P' & _).
  exists q'. split; [exact R|]. split; [exact P'|]. split; [exact D'|]. split.
  - exists (rel ++ map (fun p => (event (info p), ack_state p)) rel').
    split; [|split].
    + rewrite C, acks_reported_app, Rep, acks_reported_reports, app_assoc. reflexivity.
    + rewrite map_app, map_map. cbn [fst].
      change (map (fun p : Pending => event (info p)) rel') with (buffered_events rel').
      rewrite (evolves_events _ _ Epre), (evolves_events _ _ Epost), <- app_assoc.
      unfold buffered_events at 1 2. rewrite <- map_app, <- B.
      fold (buffered_events (record_ack m (sent_events_awaiting_ack_ q))).
      rewrite (evolves_events _ _ (record_ack_evolves m _)). exact Seq.
    + apply Forall_app. split; [exact Known|].
      apply Forall_map. exact K'.
  - intros p' Hin' Hk.
    destruct (evolves_in_r _ _ _ Epost Hin') as (p & Hin & Ev & Keep).
    assert (Hrec : In p (record_ack m (sent_events_awaiting_ack_ q)))
      by (rewrite B; apply in_or_app; right; exact Hin).
    assert (Kp : is_unknown (ack_state p) = false).
    { rewrite <- Ev in Hk. destruct Hk as [Hk|Hk].
      - apply (record_ack_settles m (sent_events_awaiting_ack_ q) K); auto.
        rewrite <- Seq, map_app in ND. exact (NoDup_app_tail _ _ ND).
      - destruct (evolves_in_r _ _ _ (record_ack_evolves m _) Hrec) as (p0 & Hin0 & Ev0 & Keep0).
        rewrite <- Ev0 in Hk. specialize (Settled p0 Hin0 Hk).
        rewrite (Keep0 Settled). exact Settled. }
    rewrite (Keep Kp). exact Kp.
Qed.

Lemma in_order_weaken (base : list (WebGestureEvent * InputEventAckState))
  (es : list WebGestureEvent) (s1 s2 : list WebInputEventType) (q : GestureEventQueue) :
  (forall k, In k s2 -> In k s1) -> in_order base es s1 q -> in_order base es s2 q.
Proof.
  intros Sub (P & D & R & S). repeat split; auto.
Qed.

Lemma in_order_run (n : nat) (base : list (WebGestureEvent * InputEventAckState))
  (es : list WebGestureEvent) (acks : list Ack) :
  NoDup (map GetType es) ->
  Forall (fun m => is_unknown (msg_result m) = false) acks ->
  forall settled q,
    in_order base es settled q ->
    exists q',
      for_each (ProcessGestureAck (S (S n))) acks q = Done tt q' /\
      in_order base es (rev (map (@msg_type _) acks) ++ settled) q'.
Proof.
  intros ND. induction 1 as [|m acks Km _ IH]; intros settled q Hq.
  - exists q. split; [reflexivity | exact Hq].
  - destruct (in_order_step n base es settled m q ND Km Hq) as (q1 & R1 & H1).
    destruct (IH _ _ H1) as (q' & R' & H').
    exists q'. split.
    + cbn [for_each]. unfold bind. rewrite R1. exact R'.
    + eapply in_order_weaken; [|exact H'].
      intros k. cbn [map rev]. rewrite <- app_assoc. cbn [app]. auto.
Qed.

(** When every kind in the buffer is settled, the drained buffer is empty. *)
Lemma in_order_complete (base : list (WebGestureEvent * InputEventAckState))
  (es : list WebGestureEvent) (settled : list WebInputEventType) (q : GestureEventQueue) :
  (forall k, In k (map GetType es) -> In k settled) ->
  in_order base es settled q ->
  sent_events_awaiting_ack_ q = [].
Proof.
  intros All (P & D & (rel & Rep & Seq & Known) & Settled).
  destruct (sent_events_awaiting_ack_ q) as [|p l] eqn:E; [reflexivity|].
  simpl in D. rewrite Settled in D; [discriminate | left; reflexivity |].
  apply All. rewrite <- Seq, map_app. apply in_or_app. right. simpl. left. reflexivity.
Qed.

(** ** Facts about the debounce stage *)

Lemma DebounceOrForwardEvent_eq (e : Gesture) (q : GestureEventQueue) :
  DebounceOrForwardEvent e q =
  if DCHECK_IS_ON && is_fling_kind (GetType (event e)) then DCheckFailed q
  else match ShouldForwardForBounceReduction e q with
       | Done true q' => Done true (forwarded e q')
       | Done false q' => Done false q'
       | DCheckFailed q' => DCheckFailed q'
       | OutOfBudget => OutOfBudget
       end.
Proof.
  unfold DebounceOrForwardEvent, bind, DCHECK_NE, is_fling_kind.
  destruct (DCHECK_IS_ON && (type_eqb (GetType (event e)) kGestureFlingStart
                             || type_eqb (GetType (event e)) kGestureFlingCancel)) eqn:G.
  - destruct DCHECK_IS_ON; [|discriminate].
    destruct (type_eqb (GetType (event e)) kGestureFlingStart); [reflexivity|].
    cbn in G |- *. rewrite G. reflexivity.
  - assert (G1 : DCHECK_IS_ON && type_eqb (GetType (event e)) kGestureFlingStart = false).
    { destruct DCHECK_IS_ON; [|reflexivity].
      cbn in G |- *. apply orb_false_iff in G. tauto. }
    assert (G2 : DCHECK_IS_ON && type_eqb (GetType (event e)) kGestureFlingCancel = false).
    { destruct DCHECK_IS_ON; [|reflexivity].
      cbn in G |- *. apply orb_false_iff in G. tauto. }
    rewrite G1, G2.
    destruct (ShouldForwardForBounceReduction e q) as [[|] q'| |]; try reflexivity.
    cbn [negb]. rewrite ForwardGestureEvent_eq. unfold is_fling_kind. rewrite G.
    unfold ret. reflexivity.
Qed.

Lemma drain_loop (dq : list Gesture) :
  forall q,
    (DCHECK_IS_ON = true -> no_fling_kind dq) ->
    exists q',
      for_each (fun it =>
                  consumed <- fling_FilterGestureEvent it ;;
                  if negb consumed then ForwardGestureEvent it else ret tt) dq q
      = Done tt q' /\
      sent_events_awaiting_ack_ q'
      = sent_events_awaiting_ack_ q
          ++ map (@AwaitingAck _) (fst (drain dq (fling_controller_ q))) /\
      client_ q'
      = client_ q
          ++ map (@SendGestureEventImmediately _) (fst (drain dq (fling_controller_ q))) /\
      fling_controller_ q' = snd (drain dq (fling_controller_ q)) /\
      same_but_forwarding q q'.
Proof.
  induction dq as [|e dq IH]; intros q OK; cbn [for_each drain].
  - exists q. unfold ret. cbn. rewrite !app_nil_r. repeat split.
  - assert (OK' : DCHECK_IS_ON = true -> no_fling_kind dq).
    { intros D. specialize (OK D). inversion OK; assumption. }
    unfold bind at 1. unfold bind at 1. unfold fling_FilterGestureEvent at 1.
    destruct (FlingController.FilterGestureEvent e (fling_controller_ q)) as [[|] f1] eqn:Fe;
      cbn [negb].
    + unfold ret at 1.
      destruct (IH (with_fling_controller f1 q) OK') as (q' & R & B & C & F & S).
      exists q'. split; [exact R|]. auto.
    + rewrite ForwardGestureEvent_eq.
      replace (DCHECK_IS_ON && is_fling_kind (GetType (event e))) with false.
      2:{ destruct DCHECK_IS_ON eqn:D; [|reflexivity].
          specialize (OK eq_refl). inversion OK; subst. cbn. congruence. }
      destruct (IH (forwarded e (with_fling_controller f1 q)) OK') as (q' & R & B & C & F & S).
      exists q'. split; [exact R|].
      cbn [forwarded with_client with_fling_controller with_sent_events
             sent_events_awaiting_ack_ client_ fling_controller_] in B, C, F.
      destruct (drain dq (observe_scroll e f1)) as [es f2].
      cbn [fst snd map] in *.
      rewrite B, C, F, <- !app_assoc. repeat split; apply S.
Qed.

Lemma SendScrollEndingEventsNow_eq (q : GestureEventQueue) :
  (DCHECK_IS_ON = true -> no_fling_kind (debouncing_deferral_queue_ q)) ->
  exists q',
    SendScrollEndingEventsNow q = Done tt q' /\
    scrolling_in_progress_ q' = false /\
    debouncing_deferral_queue_ q' = [] /\
    sent_events_awaiting_ack_ q'
    = sent_events_awaiting_ack_ q
        ++ map (@AwaitingAck _)
             (fst (drain (debouncing_deferral_queue_ q) (fling_controller_ q))) /\
    client_ q'
    = client_ q
        ++ map (@SendGestureEventImmediately _)
             (fst (drain (debouncing_deferral_queue_ q) (fling_controller_ q))) /\
    fling_controller_ q'
    = snd (drain (debouncing_deferral_queue_ q) (fling_controller_ q)) /\
    debounce_interval_ q' = debounce_interval_ q /\
    debounce_deferring_timer_ q' = debounce_deferring_timer_ q /\
    processing_acks_ q' = processing_acks_ q /\
    deferred_gesture_queue_ q' = deferred_gesture_queue_ q /\
    dlog_ q' = dlog_ q.
Proof.
  intros OK. unfold SendScrollEndingEventsNow. unfold bind at 1. unfold update at 1.
  cbn [with_scrolling_in_progress debouncing_deferral_queue_].
  destruct (debouncing_deferral_queue_ q) as [|e dq] eqn:E.
  - eexists. split; [reflexivity|]. cbn. rewrite !app_nil_r. repeat split. exact E.
  - unfold bind at 1. unfold update at 1.
    set (q1 := with_debouncing_queue [] (with_scrolling_in_progress false q)).
    destruct (drain_loop (e :: dq) q1 OK) as (q' & R & B & C & F & S1 & S2 & S3 & S4 & S5 & S6 & S7).
    exists q'. split; [exact R|]. repeat split; assumption.
Qed.

Lemma drained_app (l : list Pending) (es : list Gesture) :
  drained l -> drained (l ++ map (@AwaitingAck _) es).
Proof.
  destruct l as [|p l]; simpl; [|auto]. intros _. destruct es; simpl; auto.
Qed.

(** What [ShouldForwardForBounceReduction] comes to. *)
Lemma ShouldForwardForBounceReduction_cases (e : Gesture) (q : GestureEventQueue) :
  ShouldForwardForBounceReduction e q = Done true q \/
  ((0 < debounce_interval_ q)%Z /\
   FlingController.fling_in_progress (fling_controller_ q) = false /\
   GetType (event e) = kGestureScrollUpdate /\
   ShouldForwardForBounceReduction e q
   = Done true
       (with_debouncing_queue []
          (with_scrolling_in_progress true
             (with_timer (debounce_deferring_timer_ q
                            ++ [if scrolling_in_progress_ q then TimerReset
                                else TimerStart (debounce_interval_ q)]) q)))) \/
  ((0 < debounce_interval_ q)%Z /\
   FlingController.fling_in_progress (fling_controller_ q) = false /\
   scrolling_in_progress_ q = true /\
   ShouldForwardForBounceReduction e q
   = Done false (with_debouncing_queue (debouncing_deferral_queue_ q ++ [e]) q)).
Proof.
  unfold ShouldForwardForBounceReduction.
  destruct (Z.leb_spec (debounce_interval_ q) 0); [left; reflexivity|].
  destruct (FlingController.fling_in_progress (fling_controller_ q)); [left; reflexivity|].
  destruct (scrolling_in_progress_ q) eqn:S;
    destruct e as [[[] ?] ?]; cbn;
    try (left; reflexivity);
    try (right; left; repeat split; try assumption; unfold bind, call_timer, update, ret; cbn; rewrite S; reflexivity);
    try (right; right; repeat split; assumption).
Qed.

(** ** What holds between two calls *)

Lemma steady_new (config : Config) : steady (GestureEventQueue_new config).
Proof.
  repeat split; cbn; try discriminate. intros _. constructor.
Qed.

Lemma FlingControllerFilterEvent_frame (e : Gesture) (q : GestureEventQueue) :
  exists b f, FlingControllerFilterEvent e q = Done b (with_fling_controller f q).
Proof.
  unfold FlingControllerFilterEvent, bind, fling_FilterGestureEvent, call_fling, update, ret.
  destruct (FlingController.FilterGestureEvent e (fling_controller_ q)) as [[|] f].
  - exists true, f. reflexivity.
  - cbn [fling_controller_ with_fling_controller].
    destruct (type_eqb (GetType (event e)) kGestureFlingStart).
    + eexists _, _. destruct q; reflexivity.
    + destruct (type_eqb (GetType (event e)) kGestureFlingCancel).
      * eexists _, _. destruct q; reflexivity.
      * eexists _, _. reflexivity.
Qed.

Lemma DebounceOrForwardEvent_steady (e : Gesture) (b : bool) (q q' : GestureEventQueue) :
  DebounceOrForwardEvent e q = Done b q' ->
  deferred_gesture_queue_ q' = deferred_gesture_queue_ q /\
  (steady q -> steady q').
Proof.
  rewrite DebounceOrForwardEvent_eq.
  destruct (DCHECK_IS_ON && is_fling_kind (GetType (event e))) eqn:G; [discriminate|].
  destruct (ShouldForwardForBounceReduction_cases e q)
    as [-> | [(I & F & K & ->) | (I & F & S & ->)]];
    intros R; inversion R; subst; clear R; (split; [reflexivity|]);
    intros (P & D & SI & NF); unfold steady; cbn.
  - split; [exact P|]. split; [apply (drained_app _ [e]); exact D|]. auto.
  - split; [exact P|]. split; [apply (drained_app _ [e]); exact D|].
    split; [auto|]. intros _. constructor.
  - split; [exact P|]. split; [exact D|]. split; [exact SI|].
    intros DC. apply Forall_app. split; [exact (NF DC)|]. constructor; [|constructor].
    rewrite DC in G. exact G.
Qed.

Lemma drain_loop_frame (dq : list Gesture) :
  forall q q',
    for_each (fun it =>
                consumed <- fling_FilterGestureEvent it ;;
                if negb consumed then ForwardGestureEvent it else ret tt) dq q
    = Done tt q' ->
    same_but_forwarding q q' /\
    exists es, sent_events_awaiting_ack_ q'
               = sent_events_awaiting_ack_ q ++ map (@AwaitingAck _) es.
Proof.
  induction dq as [|e dq IH]; intros q q'; cbn [for_each].
  - unfold ret. intros R; inversion R; subst. split; [repeat split|].
    exists []. cbn. rewrite app_nil_r. reflexivity.
  - unfold bind at 1. unfold bind at 1. unfold fling_FilterGestureEvent at 1.
    destruct (FlingController.FilterGestureEvent e (fling_controller_ q)) as [[|] f1];
      cbn [negb].
    + unfold ret at 1. intros R. apply IH in R. exact R.
    + rewrite ForwardGestureEvent_eq.
      destruct (DCHECK_IS_ON && is_fling_kind (GetType (event e))); [discriminate|].
      intros R. apply IH in R. destruct R as (S & es & B). split; [exact S|].
      exists (e :: es). rewrite B. cbn. rewrite <- app_assoc. reflexivity.
Qed.

Lemma SendScrollEndingEventsNow_done (q q' : GestureEventQueue) :
  SendScrollEndingEventsNow q = Done tt q' ->
  scrolling_in_progress_ q' = false /\
  debouncing_deferral_queue_ q' = [] /\
  debounce_interval_ q' = debounce_interval_ q /\
  processing_acks_ q' = processing_acks_ q /\
  deferred_gesture_queue_ q' = deferred_gesture_queue_ q /\
  exists es, sent_events_awaiting_ack_ q'
             = sent_events_awaiting_ack_ q ++ map (@AwaitingAck _) es.
Proof.
  unfold SendScrollEndingEventsNow. unfold bind at 1. unfold update at 1.
  cbn [with_scrolling_in_progress debouncing_deferral_queue_].
  destruct (debouncing_deferral_queue_ q) as [|e dq] eqn:E.
  - intros R; inversion R; subst. cbn. repeat split; auto.
    exists []. cbn. rewrite app_nil_r. reflexivity.
  - unfold bind at 1. unfold update at 1. intros R.
    apply drain_loop_frame in R.
    destruct R as ((S1 & S2 & S3 & S4 & S5 & S6 & S7) & es & B).
    repeat split; try assumption. exists es. exact B.
Qed.

Lemma perform_deferred (n : nat) (c : Call) (q q' : GestureEventQueue) :
  perform (S (S n)) c q = Done tt q' ->
  deferred_gesture_queue_ q' = stash c (deferred_gesture_queue_ q).
Proof.
  destruct c as [e|e|e| | |m|]; unfold perform, bind, ret; cbn [stash].
  - destruct (FlingControllerFilterEvent_frame e q) as (b & f & ->).
    intros R; inversion R; reflexivity.
  - destruct (DebounceOrForwardEvent e q) as [b q1| |] eqn:R; try discriminate.
    intros R'; inversion R'; subst. apply (DebounceOrForwardEvent_steady _ _ _ _ R).
  - unfold QueueDeferredEvents, update. intros R; inversion R; reflexivity.
  - unfold TakeDeferredEvents. intros R; inversion R; reflexivity.
  - unfold StopFling, call_fling, update. intros R; inversion R; reflexivity.
  - destruct (processing_acks_ q) eqn:P.
    + rewrite ProcessGestureAck_reentered by exact P. intros R; inversion R; subst.
      apply (reentered_facts m q).
    + destruct (ProcessGestureAck_pass n m q P) as (q1 & -> & _ & _ & _ & S).
      intros R; inversion R; subst. apply S.
  - intros R. apply SendScrollEndingEventsNow_done in R. apply R.
Qed.

Lemma perform_steady (n : nat) (c : Call) (q q' : GestureEventQueue) :
  perform (S (S n)) c q = Done tt q' -> steady q -> steady q'.
Proof.
  destruct c as [e|e|e| | |m|]; unfold perform, bind, ret.
  - destruct (FlingControllerFilterEvent_frame e q) as (b & f & ->).
    intros R; inversion R; subst. intros (P & D & S & NF). repeat split; assumption.
  - destruct (DebounceOrForwardEvent e q) as [b q1| |] eqn:R; try discriminate.
    intros R'; inversion R'; subst. apply (DebounceOrForwardEvent_steady _ _ _ _ R).
  - unfold QueueDeferredEvents, update. intros R; inversion R; subst.
    intros (P & D & S & NF). repeat split; assumption.
  - unfold TakeDeferredEvents. intros R; inversion R; subst.
    intros (P & D & S & NF). repeat split; assumption.
  - unfold StopFling, call_fling, update. intros R; inversion R; subst.
    intros (P & D & S & NF). repeat split; assumption.
  - intros R (P & D & S & NF).
    destruct (ProcessGestureAck_pass n m q P) as (q1 & R1 & _ & D1 & P1 & (S1 & S2 & S3 & S4 & S5 & S6)).
    rewrite R1 in R. inversion R; subst.
    split; [exact P1|]. split; [exact D1|]. split.
    + rewrite S1, S2. exact S.
    + rewrite S4. exact NF.
  - intros R (P & D & S & NF). apply SendScrollEndingEventsNow_done in R.
    destruct R as (R1 & R2 & R3 & R4 & R5 & es & B).
    split; [congruence|]. split; [rewrite B; apply drained_app; exact D|].
    split; [congruence|]. rewrite R2. intros _. constructor.
Qed.

Lemma perform_all_steady (n : nat) (cs : list Call) :
  forall q q', perform_all (S (S n)) cs q = Done tt q' -> steady q -> steady q'.
Proof.
  unfold perform_all. induction cs as [|c cs IH]; intros q q'; cbn [for_each].
  - unfold ret. intros R; inversion R; subst. auto.
  - unfold bind. destruct (perform (S (S n)) c q) as [[] q1| |] eqn:R1; try discriminate.
    intros R S. eapply IH; [exact R|]. eapply perform_steady; eassumption.
Qed.

Lemma perform_all_deferred (n : nat) (cs : list Call) :
  forall q q', perform_all (S (S n)) cs q = Done tt q' ->
               deferred_gesture_queue_ q' = stash_all cs (deferred_gesture_queue_ q).
Proof.
  unfold perform_all, stash_all. induction cs as [|c cs IH]; intros q q'; cbn [for_each fold_left].
  - unfold ret. intros R; inversion R; subst. reflexivity.
  - unfold bind. destruct (perform (S (S n)) c q) as [[] q1| |] eqn:R1; try discriminate.
    intros R. rewrite (IH _ _ R), (perform_deferred _ _ _ _ R1). reflexivity.
Qed.

Lemma reachable_steady (q : GestureEventQueue) : reachable q -> steady q.
Proof.
  intros (config & calls & nesting & N & R).
  destruct nesting as [|[|n]]; try lia.
  eapply perform_all_steady; [exact R | apply steady_new].
Qed.

Lemma ProcessGestureAck_S (n : nat) (m : Ack) (q : GestureEventQueue) :
  ProcessGestureAck (S n) m q =
  match sent_events_awaiting_ack_ q with
  | [] => (DLOG_ERROR (msg_type m) ;; ret tt) q
  | _ :: _ =>
      (update (fun q' => with_sent_events
                           (record_ack m (sent_events_awaiting_ack_ q')) q') ;;
       AckCompletedEvents n) q
  end.
Proof. reflexivity. Qed.

Lemma with_sent_events_same (q : GestureEventQueue) :
  with_sent_events (sent_events_awaiting_ack_ q) q = q.
Proof. destruct q; reflexivity. Qed.

Lemma stash_all_no_take (cs : list Call) :
  Forall (fun c => c <> CallTakeDeferredEvents) cs ->
  forall side, stash_all cs side = side ++ stashed_in cs.
Proof.
  unfold stash_all. induction 1 as [|c cs Hc _ IH]; intros side; cbn [fold_left stashed_in].
  - rewrite app_nil_r. reflexivity.
  - rewrite IH. destruct c; cbn [stash]; try reflexivity.
    + rewrite <- app_assoc. reflexivity.
    + congruence.
Qed.

(** ** The claims *)

(** C1. Events with pairwise distinct kinds are forwarded into an empty buffer
    and then acknowledged, each with a known result, in any permutation of the
    forwarding order. At every point of the acknowledgment sequence the client
    has been told, by [OnGestureEventAck], of a front part of the forwarded
    events, in forwarding order, each once and each with a state that has left
    unknown; the buffer holds the rest, in order, and its front entry is still
    unknown. When all acknowledgments are in, the buffer is empty and the
    client has been told of every event, in the order of forwarding. This
    holds whatever the client hands back while it is being told. *)
Theorem acks_released_in_forwarding_order :
  forall (nesting : nat) (es : list Gesture) (acks : list Ack)
         (q0 q1 : GestureEventQueue),
    2 <= nesting ->
    sent_events_awaiting_ack_ q0 = [] ->
    processing_acks_ q0 = false ->
    for_each ForwardGestureEvent es q0 = Done tt q1 ->
    NoDup (map (fun e => GetType (event e)) es) ->
    Permutation (map (@msg_type _) acks) (map (fun e => GetType (event e)) es) ->
    Forall (fun m => is_unknown (msg_result m) = false) acks ->
    forall acks1 acks2,
      acks = acks1 ++ acks2 ->
      exists q2 rel,
        for_each (ProcessGestureAck nesting) acks1 q1 = Done tt q2 /\
        acks_reported (client_ q2) = acks_reported (client_ q0) ++ rel /\
        map fst rel ++ buffered_events (sent_events_awaiting_ack_ q2)
        = map (@event _) es /\
        Forall (fun r => is_unknown (snd r) = false) rel /\
        drained (sent_events_awaiting_ack_ q2) /\
        (acks2 = [] ->
         sent_events_awaiting_ack_ q2 = [] /\ map fst rel = map (@event _) es).
Proof.
  intros nesting es acks q0 q1 N B0 P0 F ND Perm Known acks1 acks2 Split.
  destruct nesting as [|[|n]]; try lia. clear N.
  destruct (forward_all_fields es q0 q1 F) as (B1 & C1 & P1).
  rewrite B0 in B1. cbn [app] in B1.
  assert (ND' : NoDup (map GetType (map (@event _) es))) by (rewrite map_map; exact ND).
  assert (Start : in_order (acks_reported (client_ q0)) (map (@event _) es) [] q1).
  { split; [congruence|]. split.
    - rewrite B1. destruct es; simpl; auto.
    - split.
      + exists []. rewrite C1, acks_reported_app, B1. cbn [map fst app].
        split; [|split; [|constructor]].
        * f_equal. clear. induction es; simpl; auto.
        * unfold buffered_events. rewrite map_map. reflexivity.
      + intros p _ []. }
  assert (Known1 : Forall (fun m => is_unknown (msg_result m) = false) acks1).
  { rewrite Split in Known. apply Forall_app in Known. tauto. }
  destruct (in_order_run n _ _ acks1 ND' Known1 [] q1 Start) as (q2 & R & H2).
  pose proof H2 as (P2 & D2 & (rel & Rep & Seq & K2) & Settled).
  exists q2, rel. split; [exact R|]. split; [exact Rep|]. split; [exact Seq|].
  split; [exact K2|]. split; [exact D2|].
  intros ->. rewrite app_nil_r in Split. subst acks1.
  assert (E : sent_events_awaiting_ack_ q2 = []).
  { apply (in_order_complete _ _ _ q2) in H2; [exact H2|].
    intros k Hk. rewrite app_nil_r. apply in_rev with (l := map (@msg_type _) acks).
    rewrite map_map in Hk.
    apply (Permutation_in k (Permutation_sym Perm)). exact Hk. }
  split; [exact E|]. rewrite E in Seq. cbn [buffered_events map] in Seq.
  rewrite app_nil_r in Seq. exact Seq.
Qed.

(** C2, as the code has it. For an event of kind fling start or fling cancel:
    [FlingControllerFilterEvent] always returns [true] and touches the fling
    controller only; [DebounceOrForwardEvent] and [ForwardGestureEvent] assert
    that they are not given such an event. With [DCHECK] on, both calls are
    fatal before anything is sent or buffered: the process dies with the
    queue, and what the client has been told, exactly as the call found them.
    With [DCHECK] compiled out the
    event is not dropped: it is handled like every kind outside scroll-update
    and pinch, deferred to the debouncing queue while scrolling is in progress
    (positive interval, no fling) and otherwise appended to the buffer and
    sent to the client. *)
Theorem fling_kinds_guarded_by_assertion_only :
  forall (e : Gesture) (q : GestureEventQueue),
    is_fling_kind (GetType (event e)) = true ->
    (exists f, FlingControllerFilterEvent e q = Done true (with_fling_controller f q)) /\
    (DCHECK_IS_ON = true ->
     DebounceOrForwardEvent e q = DCheckFailed q /\
     ForwardGestureEvent e q = DCheckFailed q) /\
    (DCHECK_IS_ON = false ->
     ForwardGestureEvent e q = Done tt (forwarded e q) /\
     DebounceOrForwardEvent e q =
     if (0 <? debounce_interval_ q)%Z
        && negb (FlingController.fling_in_progress (fling_controller_ q))
        && scrolling_in_progress_ q
     then Done false (with_debouncing_queue (debouncing_deferral_queue_ q ++ [e]) q)
     else Done true (forwarded e q)).
Proof.
  intros e q K. split; [|split].
  - unfold FlingControllerFilterEvent, bind, fling_FilterGestureEvent, call_fling, update, ret.
    destruct (FlingController.FilterGestureEvent e (fling_controller_ q)) as [[|] f].
    + exists f. reflexivity.
    + cbn [fling_controller_ with_fling_controller].
      unfold is_fling_kind in K.
      destruct (type_eqb (GetType (event e)) kGestureFlingStart).
      * eexists. destruct q; reflexivity.
      * cbn in K. rewrite K. eexists. destruct q; reflexivity.
  - intros D. rewrite DebounceOrForwardEvent_eq, ForwardGestureEvent_eq, D, K. auto.
  - intros D. rewrite DebounceOrForwardEvent_eq, ForwardGestureEvent_eq, D.
    split; [reflexivity|]. cbn [andb].
    unfold ShouldForwardForBounceReduction.
    rewrite Z.ltb_antisym.
    destruct (debounce_interval_ q <=? 0)%Z; [reflexivity|].
    destruct (FlingController.fling_in_progress (fling_controller_ q)); [reflexivity|].
    cbn [negb andb].
    unfold is_fling_kind in K.
    destruct e as [[[] ?] ?]; cbn in K; try discriminate; cbn;
      destruct (scrolling_in_progress_ q); reflexivity.
Qed.

(** C3. While a release pass is open ([processing_acks_] set),
    [AckCompletedEvents] returns at once and changes nothing, and a
    [ProcessGestureAck] the client makes from inside [OnGestureEventAck] does
    its scan only: it tells the client nothing and removes nothing from the
    buffer. The outer pass, whatever the client hands back while it is told,
    ends with the buffer drained: what it reports is a front part of the
    buffer, in buffer order, each entry once and with a known state, and what
    it leaves is the rest of the buffer, in order. *)
Theorem nested_release_is_noop :
  forall (n : nat) (m : Ack) (q : GestureEventQueue),
    (processing_acks_ q = true ->
     AckCompletedEvents n q = Done tt q /\
     exists q',
       ProcessGestureAck (S n) m q = Done tt q' /\
       client_ q' = client_ q /\
       processing_acks_ q' = true /\
       length (sent_events_awaiting_ack_ q') = length (sent_events_awaiting_ack_ q) /\
       buffered_events (sent_events_awaiting_ack_ q')
       = buffered_events (sent_events_awaiting_ack_ q)) /\
    (processing_acks_ q = false ->
     exists q' rel,
       AckCompletedEvents (S n) q = Done tt q' /\
       processing_acks_ q' = false /\
       drained (sent_events_awaiting_ack_ q') /\
       client_ q' = client_ q ++ map report_of rel /\
       Forall (fun p => is_unknown (ack_state p) = false) rel /\
       buffered_events rel ++ buffered_events (sent_events_awaiting_ack_ q')
       = buffered_events (sent_events_awaiting_ack_ q)).
Proof.
  intros n m q. split; intros P.
  - split.
    + unfold AckCompletedEvents, AckCompletedEvents_with. rewrite P. reflexivity.
    + exists (reentered m q). split; [apply ProcessGestureAck_reentered; exact P|].
      destruct (reentered_facts m q) as (P' & C & E & _).
      split; [exact C|]. split; [congruence|].
      split; [apply evolves_length | apply evolves_events]; exact E.
  - destruct (AckCompletedEvents_pass n q P) as (q' & R & Rel & D & P' & _).
    destruct (releases_order _ _ _ Rel) as (rel & C & K & O).
    exists q', rel. auto 10.
Qed.

(** C4, as the code has it. With a positive debounce interval and no fling in
    progress, a scroll-update starts the timer for the interval when
    [scrolling_in_progress_] is unset and resets it when the flag is set; in
    both cases the flag is set afterwards, the debouncing queue is emptied, the
    scroll-update is appended to the buffer and sent to the client, and
    [DebounceOrForwardEvent] returns [true]. The events that were in the
    debouncing queue are in no queue and have not been sent, and the timer
    firing next forwards nothing. *)
Theorem scroll_update_restarts_debounce :
  forall (e : Gesture) (q : GestureEventQueue),
    (0 < debounce_interval_ q)%Z ->
    FlingController.fling_in_progress (fling_controller_ q) = false ->
    GetType (event e) = kGestureScrollUpdate ->
    exists q',
      DebounceOrForwardEvent e q = Done true q' /\
      debounce_deferring_timer_ q'
      = debounce_deferring_timer_ q
          ++ [if scrolling_in_progress_ q then TimerReset
              else TimerStart (debounce_interval_ q)] /\
      scrolling_in_progress_ q' = true /\
      debouncing_deferral_queue_ q' = [] /\
      deferred_gesture_queue_ q' = deferred_gesture_queue_ q /\
      sent_events_awaiting_ack_ q' = sent_events_awaiting_ack_ q ++ [AwaitingAck e] /\
      client_ q' = client_ q ++ [SendGestureEventImmediately e] /\
      SendScrollEndingEventsNow q' = Done tt (with_scrolling_in_progress false q').
Proof.
  intros e q I F K.
  rewrite DebounceOrForwardEvent_eq. unfold is_fling_kind. rewrite K. cbn [type_eqb].
  replace (DCHECK_IS_ON && _) with false by (destruct DCHECK_IS_ON; reflexivity).
  unfold ShouldForwardForBounceReduction. rewrite F, K.
  destruct (Z.leb_spec (debounce_interval_ q) 0); [lia|].
  unfold bind, call_timer, update, ret.
  destruct (scrolling_in_progress_ q); cbn [negb];
    eexists; (split; [reflexivity|]); repeat split.
Qed.

(** C5. In a queue reached by calls, with [scrolling_in_progress_] set, no
    fling in progress and a debounce interval other than zero, an event that
    passes the assertions of [DebounceOrForwardEvent] and is neither a
    scroll-update nor a pinch kind is appended to the debouncing queue, and
    the call returns [false]: nothing is sent. When the timer fires next, the
    flag is cleared and the debouncing queue is emptied, front to back: each
    event is offered to the filter of the fling controller and, when the
    filter does not consume it, forwarded, once. A filter that consumes
    nothing lets all of them through. *)
Theorem deferred_while_scrolling_then_flushed :
  forall (e : Gesture) (q : GestureEventQueue),
    reachable q ->
    scrolling_in_progress_ q = true ->
    FlingController.fling_in_progress (fling_controller_ q) = false ->
    debounce_interval_ q <> 0%Z ->
    GetType (event e) <> kGestureScrollUpdate ->
    GetType (event e) <> kGesturePinchBegin ->
    GetType (event e) <> kGesturePinchEnd ->
    GetType (event e) <> kGesturePinchUpdate ->
    DCHECK_IS_ON && is_fling_kind (GetType (event e)) = false ->
    let dq := debouncing_deferral_queue_ q ++ [e] in
    let q1 := with_debouncing_queue dq q in
    DebounceOrForwardEvent e q = Done false q1 /\
    exists q2,
      SendScrollEndingEventsNow q1 = Done tt q2 /\
      scrolling_in_progress_ q2 = false /\
      debouncing_deferral_queue_ q2 = [] /\
      client_ q2
      = client_ q
          ++ map (@SendGestureEventImmediately _) (fst (drain dq (fling_controller_ q))) /\
      sent_events_awaiting_ack_ q2
      = sent_events_awaiting_ack_ q
          ++ map (@AwaitingAck _) (fst (drain dq (fling_controller_ q))) /\
      fling_controller_ q2 = snd (drain dq (fling_controller_ q)) /\
      ((forall x f, fst (FlingController.FilterGestureEvent x f) = false) ->
       fst (drain dq (fling_controller_ q)) = dq).
Proof.
  intros e q R S F I K1 K2 K3 K4 G dq q1.
  destruct (reachable_steady q R) as (P & D & SI & NF).
  split.
  - rewrite DebounceOrForwardEvent_eq, G.
    destruct (ShouldForwardForBounceReduction_cases e q)
      as [H | [(_ & _ & K & _) | (_ & _ & _ & ->)]]; [|contradiction|reflexivity].
    exfalso. revert H. unfold ShouldForwardForBounceReduction.
    specialize (SI S). destruct (Z.leb_spec (debounce_interval_ q) 0); [lia|].
    rewrite F, S.
    destruct e as [[[] ?] ?]; cbn in *; try congruence; discriminate.
  - destruct (SendScrollEndingEventsNow_eq q1) as (q2 & R2 & A1 & A2 & A3 & A4 & A5 & _).
    { intros DC. subst q1 dq. cbn. apply Forall_app. split; [exact (NF DC)|].
      constructor; [|constructor]. rewrite DC in G. exact G. }
    exists q2. split; [exact R2|]. split; [exact A1|]. split; [exact A2|].
    split; [exact A4|]. split; [exact A3|]. split; [exact A5|].
    intros Pass. clear - Pass. generalize (fling_controller_ q).
    induction dq as [|x dq IH]; intros f; cbn [drain]; [reflexivity|].
    specialize (Pass x f).
    destruct (FlingController.FilterGestureEvent x f) as [c f1]. cbn in Pass. subst c.
    specialize (IH (observe_scroll x f1)).
    destruct (drain dq (observe_scroll x f1)) as [es f2]. cbn in *. congruence.
Qed.

(** C6. An event of a kind other than fling start and fling cancel is
    forwarded at once, and [DebounceOrForwardEvent] returns [true], when the
    debounce interval is zero and when a fling is in progress, whatever
    [scrolling_in_progress_] is: the event is appended to the buffer and sent
    to the client. *)
Theorem forwarded_when_disabled_or_flinging :
  forall (e : Gesture) (q : GestureEventQueue),
    is_fling_kind (GetType (event e)) = false ->
    debounce_interval_ q = 0%Z \/
    FlingController.fling_in_progress (fling_controller_ q) = true ->
    DebounceOrForwardEvent e q = Done true (forwarded e q) /\
    sent_events_awaiting_ack_ (forwarded e q)
    = sent_events_awaiting_ack_ q ++ [AwaitingAck e] /\
    client_ (forwarded e q) = client_ q ++ [SendGestureEventImmediately e].
Proof.
  intros e q K H. split; [|split; reflexivity].
  rewrite DebounceOrForwardEvent_eq, K, andb_false_r.
  unfold ShouldForwardForBounceReduction.
  destruct H as [H|H]; rewrite H.
  - reflexivity.
  - destruct (debounce_interval_ q <=? 0)%Z; reflexivity.
Qed.

(** C7. The first entry of the buffer, front to back, that is still unknown
    and has the kind of the acknowledgment is the one [ProcessGestureAck]
    updates, wherever it stands: the latency is merged into its event, its
    state and source are set, and the scan changes no other entry. The
    release that follows reports a front part of the buffer and keeps the
    rest in its order; no entry changes place. *)
Theorem ack_marks_first_waiting_entry :
  forall (n : nat) (m : Ack) (q : GestureEventQueue)
         (pre post : list Pending) (p : Pending),
    sent_events_awaiting_ack_ q = pre ++ p :: post ->
    Forall (fun x => awaits m x = false) pre ->
    awaits m p = true ->
    let marked :=
      {| info := {| event := event (info p);
                    latency := AddNewLatencyFrom (latency (info p)) (msg_latency m) |};
         ack_source := msg_source m;
         ack_state := msg_result m |} in
    record_ack m (sent_events_awaiting_ack_ q) = pre ++ marked :: post /\
    (processing_acks_ q = true ->
     ProcessGestureAck (S n) m q
     = Done tt (with_sent_events (pre ++ marked :: post) q)) /\
    (processing_acks_ q = false ->
     exists q' front back rel,
       ProcessGestureAck (S (S n)) m q = Done tt q' /\
       pre ++ marked :: post = front ++ back /\
       evolves front rel /\
       Forall (fun x => is_unknown (ack_state x) = false) rel /\
       client_ q' = client_ q ++ map report_of rel /\
       evolves back (sent_events_awaiting_ack_ q') /\
       buffered_events (sent_events_awaiting_ack_ q)
       = buffered_events rel ++ buffered_events (sent_events_awaiting_ack_ q')).
Proof.
  intros n m q pre post p B NoPre Hit marked.
  assert (Scan : record_ack m (sent_events_awaiting_ack_ q) = pre ++ marked :: post).
  { rewrite B. apply record_ack_first_match; assumption. }
  split; [exact Scan|]. split; intros P.
  - rewrite ProcessGestureAck_reentered by exact P.
    unfold reentered. rewrite <- Scan.
    destruct (sent_events_awaiting_ack_ q) eqn:E; [|reflexivity].
    destruct pre; discriminate.
  - destruct (ProcessGestureAck_pass n m q P) as (q' & R & Rel & _).
    pose proof (releases_order _ _ _ Rel) as (rel0 & C0 & _ & O0).
    destruct Rel as (front & back & rel & Split & Ef & K & Eb & C).
    exists q', front, back, rel. rewrite <- Scan.
    split; [exact R|]. split; [exact Split|]. split; [exact Ef|]. split; [exact K|].
    split; [exact C|]. split; [exact Eb|].
    rewrite <- (evolves_events _ _ (record_ack_evolves m (sent_events_awaiting_ack_ q))).
    rewrite Split, (evolves_events _ _ Ef), (evolves_events _ _ Eb).
    unfold buffered_events. rewrite map_app. reflexivity.
Qed.

(** C8. With an empty buffer [ProcessGestureAck] writes its diagnostic, in a
    build that logs, and changes nothing else: the buffer stays empty, the
    client is told nothing, the call returns. With a non-empty buffer in which
    no unknown entry has the kind of the acknowledgment, the call leaves the
    queue exactly as it was, between calls as well as inside a release pass:
    no entry is changed and nothing is released. *)
Theorem unexpected_or_unmatched_ack_is_ignored :
  forall (n : nat) (m : Ack) (q : GestureEventQueue),
    (sent_events_awaiting_ack_ q = [] ->
     exists q',
       ProcessGestureAck (S n) m q = Done tt q' /\
       q' = (if DCHECK_IS_ON then with_dlog (dlog_ q ++ [msg_type m]) q else q) /\
       sent_events_awaiting_ack_ q' = [] /\
       client_ q' = client_ q) /\
    (sent_events_awaiting_ack_ q <> [] ->
     Forall (fun p => awaits m p = false) (sent_events_awaiting_ack_ q) ->
     processing_acks_ q = true \/ reachable q ->
     ProcessGestureAck (S (S n)) m q = Done tt q).
Proof.
  intros n m q. split.
  - intros E. eexists. split; [|split; [reflexivity|]].
    + cbn [ProcessGestureAck]. rewrite E. reflexivity.
    + destruct DCHECK_IS_ON; cbn; auto.
  - intros NE NoMatch Where.
    assert (Scan : with_sent_events (record_ack m (sent_events_awaiting_ack_ q)) q = q).
    { rewrite (record_ack_no_match m _ NoMatch). apply with_sent_events_same. }
    destruct Where as [P|R].
    + rewrite ProcessGestureAck_reentered by exact P. unfold reentered.
      destruct (sent_events_awaiting_ack_ q) eqn:E; [congruence|].
      rewrite Scan. reflexivity.
    + destruct (reachable_steady q R) as (P & D & _).
      rewrite ProcessGestureAck_S.
      destruct (sent_events_awaiting_ack_ q) as [|p l] eqn:E; [congruence|].
      unfold bind at 1. unfold update at 1. rewrite E, Scan.
      unfold AckCompletedEvents, AckCompletedEvents_with. rewrite P.
      unfold bind at 1. unfold update at 1. unfold bind at 1.
      assert (W : AckCompletedEvents_while (ProcessGestureAck (S n))
                    (length (sent_events_awaiting_ack_ q)) (with_processing_acks true q)
                  = Done tt (with_processing_acks true q)).
      { rewrite E. cbn [length AckCompletedEvents_while
                          with_processing_acks sent_events_awaiting_ack_].
        rewrite E. simpl in D. rewrite D. reflexivity. }
      rewrite W. unfold update. f_equal. clear - P. destruct q; cbn in P; subst. reflexivity.
Qed.

(** C9. Start from a queue whose side queue is empty, as it is when the queue
    is new and after every [TakeDeferredEvents]. After any sequence of calls
    without a [TakeDeferredEvents], debounce calls, acknowledgments and firings
    of the timer among them, [TakeDeferredEvents] returns the events given to
    [QueueDeferredEvents], in the order they were given, and leaves the side
    queue empty; the next [TakeDeferredEvents] returns the empty sequence. *)
Theorem take_returns_stashed_events :
  forall (n : nat) (cs : list Call) (q q1 : GestureEventQueue),
    deferred_gesture_queue_ q = [] ->
    Forall (fun c => c <> CallTakeDeferredEvents) cs ->
    perform_all (S (S n)) cs q = Done tt q1 ->
    exists q2,
      TakeDeferredEvents q1 = Done (stashed_in cs) q2 /\
      deferred_gesture_queue_ q2 = [] /\
      TakeDeferredEvents q2 = Done [] q2.
Proof.
  intros n cs q q1 E NoTake R.
  assert (Side : deferred_gesture_queue_ q1 = stashed_in cs).
  { rewrite (perform_all_deferred n cs q q1 R), (stash_all_no_take cs NoTake), E.
    reflexivity. }
  exists (with_deferred_queue [] q1). rewrite <- Side. repeat split.
Qed.

(** C10. While a fling is in progress [ShouldForwardForBounceReduction]
    returns [true] and leaves the queue as it is: flag, timer and debouncing
    queue keep their values, also for a scroll-update. Without a fling, and
    with a positive interval, a scroll-update empties the debouncing queue. *)
Theorem fling_bypass_keeps_debounce_state :
  forall (e : Gesture) (q : GestureEventQueue),
    FlingController.fling_in_progress (fling_controller_ q) = true ->
    ShouldForwardForBounceReduction e q = Done true q /\
    (forall q0 : GestureEventQueue,
        (0 < debounce_interval_ q0)%Z ->
        FlingController.fling_in_progress (fling_controller_ q0) = false ->
        GetType (event e) = kGestureScrollUpdate ->
        exists q',
          ShouldForwardForBounceReduction e q0 = Done true q' /\
          debouncing_deferral_queue_ q' = []).
Proof.
  intros e q F. split.
  - unfold ShouldForwardForBounceReduction. rewrite F.
    destruct (debounce_interval_ q <=? 0)%Z; reflexivity.
  - intros q0 I F0 K. unfold ShouldForwardForBounceReduction.
    rewrite F0, K. destruct (Z.leb_spec (debounce_interval_ q0) 0); [lia|].
    unfold bind, call_timer, update, ret.
    destruct (scrolling_in_progress_ q0); eexists; split; reflexivity.
Qed.

(** ** Further facts *)

Lemma sent_events_app (c1 c2 : list (ClientCall LatencyInfo)) :
  sent_events (c1 ++ c2) = sent_events c1 ++ sent_events c2.
Proof.
  induction c1 as [|[e|e src res] c1 IH]; simpl; [reflexivity| |exact IH].
  rewrite IH. reflexivity.
Qed.

Lemma sent_events_sends (es : list Gesture) :
  sent_events (map (@SendGestureEventImmediately _) es) = es.
Proof. induction es as [|e es IH]; simpl; [reflexivity|]. rewrite IH. reflexivity. Qed.

Lemma sent_events_reports (rel : list Pending) : sent_events (map report_of rel) = [].
Proof. induction rel as [|p rel IH]; simpl; auto. Qed.

Lemma acks_reported_sends (es : list Gesture) :
  acks_reported (map (@SendGestureEventImmediately _) es) = [].
Proof. induction es as [|e es IH]; simpl; auto. Qed.

(** What [DebounceOrForwardEvent] comes to when it returns. *)
Lemma DebounceOrForwardEvent_cases (e : Gesture) (b : bool) (q q' : GestureEventQueue) :
  DebounceOrForwardEvent e q = Done b q' ->
  DCHECK_IS_ON && is_fling_kind (GetType (event e)) = false /\
  ((b = true /\ q' = forwarded e q) \/
   (b = true /\
    (0 < debounce_interval_ q)%Z /\
    FlingController.fling_in_progress (fling_controller_ q) = false /\
    GetType (event e) = kGestureScrollUpdate /\
    q' = forwarded e
           (with_debouncing_queue []
              (with_scrolling_in_progress true
                 (with_timer (debounce_deferring_timer_ q
                                ++ [if scrolling_in_progress_ q then TimerReset
                                    else TimerStart (debounce_interval_ q)]) q)))) \/
   (b = false /\
    (0 < debounce_interval_ q)%Z /\
    FlingController.fling_in_progress (fling_controller_ q) = false /\
    scrolling_in_progress_ q = true /\
    q' = with_debouncing_queue (debouncing_deferral_queue_ q ++ [e]) q)).
Proof.
  rewrite DebounceOrForwardEvent_eq.
  destruct (DCHECK_IS_ON && is_fling_kind (GetType (event e))) eqn:G; [discriminate|].
  intros R. split; [reflexivity|].
  destruct (ShouldForwardForBounceReduction_cases e q)
    as [H | [(I & F & K & H) | (I & F & S & H)]];
    rewrite H in R; inversion R; subst; clear R; auto 10.
Qed.

(** What the timer's loop sends and appends, when it returns. *)
Lemma drain_loop_sends (dq : list Gesture) :
  forall q q',
    for_each (fun it =>
                consumed <- fling_FilterGestureEvent it ;;
                if negb consumed then ForwardGestureEvent it else ret tt) dq q
    = Done tt q' ->
    exists es,
      client_ q' = client_ q ++ map (@SendGestureEventImmediately _) es /\
      sent_events_awaiting_ack_ q'
      = sent_events_awaiting_ack_ q ++ map (@AwaitingAck _) es /\
      (DCHECK_IS_ON = true -> no_fling_kind es).
Proof.
  induction dq as [|e dq IH]; intros q q'; cbn [for_each].
  - unfold ret. intros R; inversion R; subst. exists [].
    cbn [map]. rewrite !app_nil_r. repeat split. intros _. constructor.
  - unfold bind at 1. unfold bind at 1. unfold fling_FilterGestureEvent at 1.
    destruct (FlingController.FilterGestureEvent e (fling_controller_ q)) as [[|] f1];
      cbn [negb].
    + unfold ret at 1. intros R. apply IH in R. exact R.
    + rewrite ForwardGestureEvent_eq.
      destruct (DCHECK_IS_ON && is_fling_kind (GetType (event e))) eqn:G; [discriminate|].
      intros R. apply IH in R. destruct R as (es & C & B & NF).
      exists (e :: es). rewrite C, B. cbn. rewrite <- !app_assoc.
      split; [reflexivity|]. split; [reflexivity|].
      intros D. constructor; [rewrite D in G; exact G | exact (NF D)].
Qed.

(** What a call does to the client and to the buffer: it sends events and
    appends them to the buffer, or it reports entries from the front of the
    buffer. *)
Lemma perform_effect (n : nat) (c : Call) (q q' : GestureEventQueue) :
  perform (S (S n)) c q = Done tt q' ->
  exists sends rel,
    client_ q' = client_ q ++ map (@SendGestureEventImmediately _) sends
                           ++ map report_of rel /\
    buffered_events rel ++ buffered_events (sent_events_awaiting_ack_ q')
    = buffered_events (sent_events_awaiting_ack_ q) ++ map (@event _) sends /\
    Forall (fun p => is_unknown (ack_state p) = false) rel /\
    (DCHECK_IS_ON = true -> no_fling_kind sends).
Proof.
  assert (Nothing : forall q1 : GestureEventQueue,
             client_ q1 = client_ q ->
             sent_events_awaiting_ack_ q1 = sent_events_awaiting_ack_ q ->
             exists sends rel,
               client_ q1 = client_ q ++ map (@SendGestureEventImmediately _) sends
                                      ++ map report_of rel /\
               buffered_events rel ++ buffered_events (sent_events_awaiting_ack_ q1)
               = buffered_events (sent_events_awaiting_ack_ q) ++ map (@event _) sends /\
               Forall (fun p => is_unknown (ack_state p) = false) rel /\
               (DCHECK_IS_ON = true -> no_fling_kind sends)).
  { intros q1 C B. exists [], []. cbn [map app buffered_events].
    rewrite C, B, !app_nil_r. repeat split; constructor. }
  assert (One : forall (e : Gesture) (q0 q1 : GestureEventQueue),
             DCHECK_IS_ON && is_fling_kind (GetType (event e)) = false ->
             client_ q0 = client_ q ->
             sent_events_awaiting_ack_ q0 = sent_events_awaiting_ack_ q ->
             q1 = forwarded e q0 ->
             exists sends rel,
               client_ q1 = client_ q ++ map (@SendGestureEventImmediately _) sends
                                      ++ map report_of rel /\
               buffered_events rel ++ buffered_events (sent_events_awaiting_ack_ q1)
               = buffered_events (sent_events_awaiting_ack_ q) ++ map (@event _) sends /\
               Forall (fun p => is_unknown (ack_state p) = false) rel /\
               (DCHECK_IS_ON = true -> no_fling_kind sends)).
  { intros e q0 q1 G C B ->. exists [e], [].
    cbn [forwarded with_client client_ sent_events_awaiting_ack_ with_sent_events
           with_fling_controller map app buffered_events].
    rewrite C, B. unfold buffered_events. rewrite map_app.
    split; [reflexivity|]. split; [reflexivity|]. split; [constructor|].
    intros D. rewrite D in G. constructor; [exact G | constructor]. }
  destruct c as [e|e|e| | |m|]; unfold perform, bind, ret.
  - destruct (FlingControllerFilterEvent_frame e q) as (b & f & ->).
    intros R; inversion R; subst. apply Nothing; reflexivity.
  - destruct (DebounceOrForwardEvent e q) as [b q1| |] eqn:R; try discriminate.
    intros R'; inversion R'; subst.
    destruct (DebounceOrForwardEvent_cases _ _ _ _ R)
      as (G & [(_ & E) | [(_ & _ & _ & _ & E) | (_ & _ & _ & _ & E)]]).
    + eapply One; [exact G | | | exact E]; reflexivity.
    + eapply One; [exact G | | | exact E]; reflexivity.
    + subst q'. apply Nothing; reflexivity.
  - unfold QueueDeferredEvents, update. intros R; inversion R; subst.
    apply Nothing; reflexivity.
  - unfold TakeDeferredEvents. intros R; inversion R; subst. apply Nothing; reflexivity.
  - unfold StopFling, call_fling, update. intros R; inversion R; subst.
    apply Nothing; reflexivity.
  - destruct (processing_acks_ q) eqn:P.
    + rewrite ProcessGestureAck_reentered by exact P. intros R; inversion R; subst.
      destruct (reentered_facts m q) as (_ & C & E & _).
      exists [], []. cbn [map app buffered_events]. rewrite C, !app_nil_r.
      split; [reflexivity|]. split; [apply evolves_events; exact E|].
      split; constructor.
    + destruct (ProcessGestureAck_pass n m q P) as (q1 & -> & Rel & _).
      intros R; inversion R; subst.
      destruct (releases_order _ _ _ Rel) as (rel & C & K & O).
      exists [], rel. cbn [map app]. rewrite app_nil_r.
      split; [exact C|]. split; [|split; [exact K | constructor]].
      rewrite O. apply evolves_events. apply record_ack_evolves.
  - unfold SendScrollEndingEventsNow. unfold bind at 1. unfold update at 1.
    cbn [with_scrolling_in_progress debouncing_deferral_queue_].
    destruct (debouncing_deferral_queue_ q) as [|e dq] eqn:E.
    + intros R; inversion R; subst. apply Nothing; reflexivity.
    + unfold bind at 1. unfold update at 1. intros R.
      apply drain_loop_sends in R. destruct R as (es & C & B & NF).
      exists es, []. cbn [map buffered_events]. rewrite app_nil_r.
      split; [exact C|]. split; [|split; [constructor | exact NF]].
      rewrite B. cbn [app]. unfold buffered_events. rewrite map_app, map_map. reflexivity.
Qed.

Lemma perform_accounted (n : nat) (c : Call) (q q' : GestureEventQueue) :
  perform (S (S n)) c q = Done tt q' ->
  (accounted q -> accounted q') /\
  (DCHECK_IS_ON = true ->
   no_fling_kind (sent_events (client_ q)) -> no_fling_kind (sent_events (client_ q'))).
Proof.
  intros R. destruct (perform_effect n c q q' R) as (sends & rel & C & B & K & NF).
  assert (Sent : sent_events (client_ q') = sent_events (client_ q) ++ sends).
  { rewrite C, !sent_events_app, sent_events_sends, sent_events_reports, app_nil_r.
    reflexivity. }
  assert (Told : acks_reported (client_ q')
                 = acks_reported (client_ q)
                     ++ map (fun p => (event (info p), ack_state p)) rel).
  { rewrite C, !acks_reported_app, acks_reported_sends, acks_reported_reports.
    reflexivity. }
  split.
  - intros (Books & Known). split.
    + rewrite Sent, Told, !map_app, Books, map_map. cbn [fst].
      fold (buffered_events rel). rewrite <- !app_assoc, B. reflexivity.
    + rewrite Told. apply Forall_app. split; [exact Known|].
      apply Forall_map. exact K.
  - intros D H. rewrite Sent. apply Forall_app. split; [exact H | exact (NF D)].
Qed.

Lemma reachable_accounted (q : GestureEventQueue) :
  reachable q ->
  accounted q /\ (DCHECK_IS_ON = true -> no_fling_kind (sent_events (client_ q))).
Proof.
  intros (config & calls & nesting & N & R).
  destruct nesting as [|[|n]]; try lia. clear N. revert R.
  assert (Start : accounted (GestureEventQueue_new config) /\
                  (DCHECK_IS_ON = true ->
                   no_fling_kind (sent_events (client_ (GestureEventQueue_new config))))).
  { split; [split; constructor | intros _; constructor]. }
  revert Start. generalize (GestureEventQueue_new config).
  unfold perform_all. induction calls as [|c calls IH]; intros q0 Start; cbn [for_each].
  - unfold ret. intros R; inversion R; subst. exact Start.
  - unfold bind. destruct (perform (S (S n)) c q0) as [[] q1| |] eqn:R1; try discriminate.
    intros R. apply (IH q1); [|exact R].
    destruct (perform_accounted n c q0 q1 R1) as (A & F). destruct Start as (A0 & F0).
    split; [exact (A A0) | intros D; exact (F D (F0 D))].
Qed.

Lemma SendScrollEndingEventsNow_timer (q q' : GestureEventQueue) :
  SendScrollEndingEventsNow q = Done tt q' ->
  debounce_deferring_timer_ q' = debounce_deferring_timer_ q.
Proof.
  unfold SendScrollEndingEventsNow. unfold bind at 1. unfold update at 1.
  cbn [with_scrolling_in_progress debouncing_deferral_queue_].
  destruct (debouncing_deferral_queue_ q) as [|e dq] eqn:E.
  - intros R; inversion R; subst. reflexivity.
  - unfold bind at 1. unfold update at 1. intros R.
    apply drain_loop_frame in R. destruct R as ((_ & _ & T & _) & _). exact T.
Qed.

Lemma perform_debounce_consistent (n : nat) (c : Call) (q q' : GestureEventQueue) :
  perform (S (S n)) c q = Done tt q' ->
  debounce_consistent q -> debounce_consistent q'.
Proof.
  destruct c as [e|e|e| | |m|]; unfold perform, bind, ret.
  - destruct (FlingControllerFilterEvent_frame e q) as (b & f & ->).
    intros R; inversion R; subst. auto.
  - destruct (DebounceOrForwardEvent e q) as [b q1| |] eqn:R; try discriminate.
    intros R'; inversion R'; subst.
    destruct (DebounceOrForwardEvent_cases _ _ _ _ R)
      as (_ & [(_ & ->) | [(_ & I & _ & _ & ->) | (_ & _ & _ & S & ->)]]);
      intros (Idle & Armed & First & All); unfold debounce_consistent; cbn.
    + auto.
    + split; [discriminate|]. split; [intros _ H; apply app_eq_nil in H; destruct H; discriminate|].
      split.
      * intros _. split; [exact I|].
        destruct (debounce_deferring_timer_ q) as [|t ts] eqn:T.
        -- destruct (scrolling_in_progress_ q); [|reflexivity].
           exfalso. apply Armed; reflexivity.
        -- cbn. apply First. discriminate.
      * apply Forall_app. split; [exact All|]. constructor; [|constructor].
        destruct (scrolling_in_progress_ q); auto.
    + split; [congruence|]. auto.
  - unfold QueueDeferredEvents, update. intros R; inversion R; subst. auto.
  - unfold TakeDeferredEvents. intros R; inversion R; subst. auto.
  - unfold StopFling, call_fling, update. intros R; inversion R; subst. auto.
  - intros R.
    assert (S : same_debounce_state q q').
    { destruct (processing_acks_ q) eqn:P.
      - rewrite ProcessGestureAck_reentered in R by exact P. inversion R; subst.
        apply (reentered_facts m q).
      - destruct (ProcessGestureAck_pass n m q P) as (q1 & R1 & _ & _ & _ & S).
        rewrite R1 in R. inversion R; subst. exact S. }
    destruct S as (S1 & S2 & S3 & S4 & _).
    unfold debounce_consistent. rewrite S1, S2, S3, S4. auto.
  - intros R. pose proof (SendScrollEndingEventsNow_timer _ _ R) as T.
    apply SendScrollEndingEventsNow_done in R.
    destruct R as (R1 & R2 & R3 & _).
    intros (Idle & Armed & First & All).
    unfold debounce_consistent. rewrite R1, R2, R3, T.
    split; [reflexivity|]. split; [discriminate|]. auto.
Qed.

Lemma reachable_debounce_consistent (q : GestureEventQueue) :
  reachable q -> debounce_consistent q.
Proof.
  intros (config & calls & nesting & N & R).
  destruct nesting as [|[|n]]; try lia. clear N. revert R.
  assert (Start : debounce_consistent (GestureEventQueue_new config)).
  { unfold debounce_consistent. cbn. repeat split; try discriminate; try congruence.
    constructor. }
  revert Start. generalize (GestureEventQueue_new config).
  unfold perform_all. induction calls as [|c calls IH]; intros q0 Start; cbn [for_each].
  - unfold ret. intros R; inversion R; subst. exact Start.
  - unfold bind. destruct (perform (S (S n)) c q0) as [[] q1| |] eqn:R1; try discriminate.
    intros R. apply (IH q1); [|exact R].
    exact (perform_debounce_consistent n c q0 q1 R1 Start).
Qed.

(** ** Further properties *)

(** X1. When [DebounceOrForwardEvent] returns, the event has been forwarded
    or deferred, never both and never neither. It returns [false] exactly when
    the debounce interval is positive, no fling is in progress, the flag is
    set and the event is neither a scroll-update nor a pinch; the event is
    then appended to the debouncing queue and nothing else changes. When it
    returns [true] the event has been appended to the buffer and sent, once,
    and the debouncing queue is as before or empty. *)
Theorem debounce_forwards_or_defers :
  forall (e : Gesture) (b : bool) (q q' : GestureEventQueue),
    DebounceOrForwardEvent e q = Done b q' ->
    (b = false <->
     (0 < debounce_interval_ q)%Z /\
     FlingController.fling_in_progress (fling_controller_ q) = false /\
     scrolling_in_progress_ q = true /\
     GetType (event e) <> kGestureScrollUpdate /\
     is_pinch_kind (GetType (event e)) = false) /\
    (b = false ->
     q' = with_debouncing_queue (debouncing_deferral_queue_ q ++ [e]) q) /\
    (b = true ->
     sent_events_awaiting_ack_ q' = sent_events_awaiting_ack_ q ++ [AwaitingAck e] /\
     client_ q' = client_ q ++ [SendGestureEventImmediately e] /\
     (debouncing_deferral_queue_ q' = debouncing_deferral_queue_ q \/
      debouncing_deferral_queue_ q' = [])).
Proof.
  intros e b q q'. rewrite DebounceOrForwardEvent_eq.
  destruct (DCHECK_IS_ON && is_fling_kind (GetType (event e))); [discriminate|].
  unfold ShouldForwardForBounceReduction, is_pinch_kind.
  destruct (Z.leb_spec (debounce_interval_ q) 0) as [I|I].
  { intros R; inversion R; subst. split; [split; [discriminate | intros (H & _); lia]|].
    split; [discriminate|]. intros _. cbn. auto. }
  destruct (FlingController.fling_in_progress (fling_controller_ q)).
  { intros R; inversion R; subst.
    split; [split; [discriminate | intros (_ & H & _); discriminate]|].
    split; [discriminate|]. intros _. cbn. auto. }
  destruct (scrolling_in_progress_ q) eqn:S;
    destruct e as [[[] ?] ?]; cbn;
    intros R; inversion R; subst;
    (split; [split; [intros H; try discriminate; repeat split; try assumption;
                     try discriminate; try lia; try reflexivity
                    | intros (_ & _ & H1 & H2 & H3); try discriminate; try congruence;
                      try reflexivity] |]);
    (split; [intros H; try discriminate; try reflexivity|]);
    intros H; try discriminate; cbn; auto.
Qed.

(** X2. A pinch-begin, pinch-end or pinch-update is forwarded at once in every
    state of the queue, also while scrolling is in progress, and leaves the
    flag, the timer, the debouncing queue and the fling controller as they
    are. *)
Theorem pinch_is_never_debounced :
  forall (e : Gesture) (q : GestureEventQueue),
    is_pinch_kind (GetType (event e)) = true ->
    DebounceOrForwardEvent e q = Done true (forwarded e q) /\
    scrolling_in_progress_ (forwarded e q) = scrolling_in_progress_ q /\
    debounce_deferring_timer_ (forwarded e q) = debounce_deferring_timer_ q /\
    debouncing_deferral_queue_ (forwarded e q) = debouncing_deferral_queue_ q /\
    fling_controller_ (forwarded e q) = fling_controller_ q.
Proof.
  intros e q K. rewrite DebounceOrForwardEvent_eq.
  unfold ShouldForwardForBounceReduction, is_pinch_kind, is_fling_kind in *.
  destruct e as [[[] ?] ?]; cbn in K; try discriminate; cbn;
    rewrite andb_false_r;
    (split; [destruct (debounce_interval_ q <=? 0)%Z;
             destruct (FlingController.fling_in_progress (fling_controller_ q));
             reflexivity
            | repeat split]).
Qed.

(** X3. An event that [FlingControllerFilterEvent] lets through passes the
    assertions of the forward path: it is no fling start and no fling cancel,
    the filter of the fling controller did not consume it, the queue is
    untouched but for the fling controller, and [DebounceOrForwardEvent] and
    [ForwardGestureEvent] return for it in every build. *)
Theorem filtered_event_passes_the_assertions :
  forall (e : Gesture) (q q' : GestureEventQueue),
    FlingControllerFilterEvent e q = Done false q' ->
    is_fling_kind (GetType (event e)) = false /\
    FlingController.FilterGestureEvent e (fling_controller_ q)
    = (false, fling_controller_ q') /\
    q' = with_fling_controller (fling_controller_ q') q /\
    ForwardGestureEvent e q' = Done tt (forwarded e q') /\
    exists b q'', DebounceOrForwardEvent e q' = Done b q''.
Proof.
  intros e q q'.
  unfold FlingControllerFilterEvent, bind, fling_FilterGestureEvent, call_fling, update, ret.
  destruct (FlingController.FilterGestureEvent e (fling_controller_ q)) as [[|] f];
    [discriminate|].
  unfold is_fling_kind.
  destruct (type_eqb (GetType (event e)) kGestureFlingStart) eqn:K1; [discriminate|].
  destruct (type_eqb (GetType (event e)) kGestureFlingCancel) eqn:K2; [discriminate|].
  intros R; inversion R; subst. cbn [orb fling_controller_ with_fling_controller].
  split; [reflexivity|]. split; [reflexivity|]. split; [reflexivity|].
  assert (G : DCHECK_IS_ON && is_fling_kind (GetType (event e)) = false).
  { unfold is_fling_kind. rewrite K1, K2. apply andb_false_r. }
  split.
  - rewrite ForwardGestureEvent_eq, G. reflexivity.
  - rewrite DebounceOrForwardEvent_eq, G.
    destruct (ShouldForwardForBounceReduction_cases e (with_fling_controller f q))
      as [-> | [(_ & _ & _ & ->) | (_ & _ & _ & ->)]]; eauto.
Qed.

(** X4. In every queue reached by calls, the events the client has been told
    of by [OnGestureEventAck], followed by the events in the buffer, are the
    events sent by [SendGestureEventImmediately], in the order they were sent:
    acknowledgments are reported in the order of the sends, whatever the kinds
    and whatever the order the acknowledgments came in. Every reported state
    is known, no release pass is open between two calls, and the front entry
    of the buffer, if there is one, is still unknown. *)
Theorem acknowledgments_follow_the_sends :
  forall q : GestureEventQueue,
    reachable q ->
    map (@event _) (sent_events (client_ q))
    = map fst (acks_reported (client_ q))
        ++ buffered_events (sent_events_awaiting_ack_ q) /\
    Forall (fun r => is_unknown (snd r) = false) (acks_reported (client_ q)) /\
    drained (sent_events_awaiting_ack_ q) /\
    processing_acks_ q = false.
Proof.
  intros q R.
  destruct (reachable_accounted q R) as ((Books & Known) & _).
  destruct (reachable_steady q R) as (P & D & _).
  auto.
Qed.

(** X5. In a build that checks its assertions, in every queue reached by
    calls, no fling start and no fling cancel has been sent to the client, is
    in the buffer or is in the debouncing queue. *)
Theorem checking_build_keeps_fling_kinds_out :
  forall q : GestureEventQueue,
    DCHECK_IS_ON = true ->
    reachable q ->
    no_fling_kind (sent_events (client_ q)) /\
    Forall (fun ev => is_fling_kind (GetType ev) = false)
           (buffered_events (sent_events_awaiting_ack_ q)) /\
    no_fling_kind (debouncing_deferral_queue_ q).
Proof.
  intros q D R.
  destruct (reachable_accounted q R) as ((Books & _) & Sent).
  destruct (reachable_steady q R) as (_ & _ & _ & Held).
  specialize (Sent D). split; [exact Sent|]. split; [|exact (Held D)].
  assert (All : Forall (fun ev => is_fling_kind (GetType ev) = false)
                       (map (@event _) (sent_events (client_ q)))).
  { apply Forall_map. exact Sent. }
  rewrite Books in All. apply Forall_app in All. tauto.
Qed.

(** X6. In every queue reached by calls: events are held in the debouncing
    queue only while [scrolling_in_progress_] is set; the flag is set only
    under a positive debounce interval and after the timer was started; the
    first call on the timer was a start, so that it is never reset before it
    was started; and every start was for the debounce interval. *)
Theorem debounce_stage_stays_consistent :
  forall q : GestureEventQueue,
    reachable q ->
    (scrolling_in_progress_ q = false -> debouncing_deferral_queue_ q = []) /\
    (scrolling_in_progress_ q = true ->
     (0 < debounce_interval_ q)%Z /\ debounce_deferring_timer_ q <> []) /\
    (debounce_deferring_timer_ q <> [] ->
     hd TimerReset (debounce_deferring_timer_ q) = TimerStart (debounce_interval_ q)) /\
    Forall (fun c => c = TimerReset \/ c = TimerStart (debounce_interval_ q))
           (debounce_deferring_timer_ q).
Proof.
  intros q R.
  destruct (reachable_debounce_consistent q R) as (Idle & Armed & First & All).
  destruct (reachable_steady q R) as (_ & _ & Positive & _).
  split; [exact Idle|]. split; [auto|]. split; [|exact All].
  intros T. apply First. exact T.
Qed.

Lemma AckCompletedEvents_while_stops (f : Ack -> Method unit) (turns : nat)
  (q : GestureEventQueue) :
  drained (sent_events_awaiting_ack_ q) ->
  AckCompletedEvents_while f turns q = Done tt q.
Proof.
  unfold drained. intros D.
  destruct turns; cbn [AckCompletedEvents_while];
    destruct (sent_events_awaiting_ack_ q); try reflexivity; rewrite D; reflexivity.
Qed.

Lemma with_processing_acks_reset (q : GestureEventQueue) :
  processing_acks_ q = false ->
  with_processing_acks false (with_processing_acks true q) = q.
Proof. destruct q; cbn. intros ->. reflexivity. Qed.

(** X7. An acknowledgment that comes in early is kept for later: when the
    front entry of the buffer is still unknown and is of another kind, the
    call tells the client nothing and removes nothing; the scan marks the
    entry the acknowledgment is for, behind the front, and the queue is
    otherwise as before. *)
Theorem early_ack_is_kept_for_later :
  forall (n : nat) (m : Ack) (q : GestureEventQueue) (p : Pending) (rest : list Pending),
    processing_acks_ q = false ->
    sent_events_awaiting_ack_ q = p :: rest ->
    is_unknown (ack_state p) = true ->
    GetType (event (info p)) <> msg_type m ->
    ProcessGestureAck (S (S n)) m q
    = Done tt (with_sent_events (p :: record_ack m rest) q).
Proof.
  intros n m q p rest P B U K.
  rewrite ProcessGestureAck_S, B. unfold bind at 1. unfold update at 1.
  rewrite B. cbn [record_ack]. rewrite U. cbn [negb].
  apply type_eqb_neq in K. rewrite K.
  unfold AckCompletedEvents, AckCompletedEvents_with.
  cbn [processing_acks_ with_sent_events]. rewrite P.
  unfold bind at 1. unfold update at 1. unfold bind at 1.
  rewrite AckCompletedEvents_while_stops by exact U.
  unfold update. f_equal. apply with_processing_acks_reset. exact P.
Qed.

(** X8. [ProcessGestureAck] always returns, and whatever the state of the
    queue and the acknowledgment, it sends no event, adds nothing to the
    buffer and moves no entry (what is left is a back part of the buffer), and
    it leaves the flag, the interval, the timer, both deferral queues and the
    fling controller as they are. *)
Theorem ack_path_touches_the_buffer_only :
  forall (n : nat) (m : Ack) (q : GestureEventQueue),
    exists q',
      ProcessGestureAck (S (S n)) m q = Done tt q' /\
      sent_events (client_ q') = sent_events (client_ q) /\
      (exists front,
          buffered_events (sent_events_awaiting_ack_ q)
          = front ++ buffered_events (sent_events_awaiting_ack_ q')) /\
      processing_acks_ q' = processing_acks_ q /\
      scrolling_in_progress_ q' = scrolling_in_progress_ q /\
      debounce_interval_ q' = debounce_interval_ q /\
      debounce_deferring_timer_ q' = debounce_deferring_timer_ q /\
      debouncing_deferral_queue_ q' = debouncing_deferral_queue_ q /\
      deferred_gesture_queue_ q' = deferred_gesture_queue_ q /\
      fling_controller_ q' = fling_controller_ q.
Proof.
  intros n m q. destruct (processing_acks_ q) eqn:P.
  - exists (reentered m q). split; [apply ProcessGestureAck_reentered; exact P|].
    destruct (reentered_facts m q) as (P' & C & E & S).
    split; [rewrite C; reflexivity|]. split.
    + exists []. rewrite (evolves_events _ _ E). reflexivity.
    + split; [congruence | exact S].
  - destruct (ProcessGestureAck_pass n m q P) as (q' & R & Rel & _ & P' & S).
    destruct (releases_order _ _ _ Rel) as (rel & C & _ & O).
    exists q'. split; [exact R|]. split.
    + rewrite C, sent_events_app, sent_events_reports, app_nil_r. reflexivity.
    + split.
      * exists (buffered_events rel). rewrite O.
        symmetry. apply evolves_events. apply record_ack_evolves.
      * split; [exact P' | exact S].
Qed.

(** X9. After the timer has fired the queue is idle again: the flag is unset
    and the debouncing queue is empty, a second firing changes nothing, and
    the next event that is no scroll-update and passes the assertions is
    forwarded at once. *)
Theorem timer_returns_the_queue_to_idle :
  forall q q' : GestureEventQueue,
    SendScrollEndingEventsNow q = Done tt q' ->
    scrolling_in_progress_ q' = false /\
    debouncing_deferral_queue_ q' = [] /\
    SendScrollEndingEventsNow q' = Done tt q' /\
    forall e : Gesture,
      DCHECK_IS_ON && is_fling_kind (GetType (event e)) = false ->
      GetType (event e) <> kGestureScrollUpdate ->
      DebounceOrForwardEvent e q' = Done true (forwarded e q').
Proof.
  intros q q' R. apply SendScrollEndingEventsNow_done in R.
  destruct R as (S & E & _).
  split; [exact S|]. split; [exact E|]. split.
  - unfold SendScrollEndingEventsNow. unfold bind at 1. unfold update at 1.
    cbn [with_scrolling_in_progress debouncing_deferral_queue_]. rewrite E.
    f_equal. clear - S. destruct q'; cbn in S; subst. reflexivity.
  - intros e G K. rewrite DebounceOrForwardEvent_eq, G.
    unfold ShouldForwardForBounceReduction. rewrite S.
    destruct (debounce_interval_ q' <=? 0)%Z; [reflexivity|].
    destruct (FlingController.fling_in_progress (fling_controller_ q')); [reflexivity|].
    destruct e as [[[] ?] ?]; cbn in *; try reflexivity. congruence.
Qed.

Lemma AckCompletedEvents_while_turn (f : Ack -> Method unit) (turns : nat)
  (q : GestureEventQueue) (iter : Pending) (rest : list Pending) :
  sent_events_awaiting_ack_ q = iter :: rest ->
  is_unknown (ack_state iter) = false ->
  AckCompletedEvents_while f (S turns) q
  = (update (with_sent_events rest) ;;
     AckGestureEventToClient f (info iter) (ack_source iter) (ack_state iter) ;;
     AckCompletedEvents_while f turns) q.
Proof. intros B K. cbn [AckCompletedEvents_while]. rewrite B, K. reflexivity. Qed.

Lemma Forall_front {A : Type} (P : A -> Prop) (l : list A) :
  Forall P l -> forall k, Forall P (firstn k l).
Proof.
  induction 1 as [|a l Ha _ IH]; intros [|k]; cbn; try constructor; auto.
Qed.

Lemma in_order_acks_run (n : nat) :
  (forall calls, reentrant_acks calls = []) ->
  forall (es : list Gesture) (acks : list Ack) (q : GestureEventQueue),
    processing_acks_ q = false ->
    sent_events_awaiting_ack_ q = map (@AwaitingAck _) es ->
    length acks <= length es ->
    map (@msg_type _) acks
    = map (fun e => GetType (event e)) (firstn (length acks) es) ->
    Forall (fun m => is_unknown (msg_result m) = false) acks ->
    exists q',
      for_each (ProcessGestureAck (S (S n))) acks q = Done tt q' /\
      client_ q' = client_ q
                     ++ map (fun em => report_acknowledged (fst em) (snd em))
                            (combine es acks) /\
      sent_events_awaiting_ack_ q' = map (@AwaitingAck _) (skipn (length acks) es) /\
      processing_acks_ q' = false.
Proof.
  intros Quiet. induction es as [|e es IH]; intros acks q P B Len Kinds Known.
  - destruct acks; [|cbn in Len; lia]. exists q. cbn. rewrite app_nil_r. auto.
  - destruct acks as [|m acks].
    { exists q. cbn. rewrite app_nil_r. auto. }
    cbn [map length firstn] in Kinds, B, Len. inversion Kinds as [[Km Kinds']]. clear Kinds.
    inversion Known as [|? ? Known_m Known']; subst.
    cbn [for_each combine map fst snd length skipn]. unfold bind at 1.
    rewrite ProcessGestureAck_S, B. unfold bind at 1. unfold update at 1. rewrite B.
    cbn [record_ack AwaitingAck ack_state is_unknown negb info].
    rewrite Km, (proj2 (type_eqb_eq _ _) eq_refl).
    unfold AckCompletedEvents, AckCompletedEvents_with.
    cbn [processing_acks_ with_sent_events]. rewrite P.
    unfold bind at 1. unfold update at 1. unfold bind at 1.
    cbn [length sent_events_awaiting_ack_ with_sent_events].
    erewrite AckCompletedEvents_while_turn; [|reflexivity|exact Known_m].
    unfold bind at 1. unfold update at 1. unfold bind at 1.
    unfold AckGestureEventToClient. unfold bind at 1. unfold call_client at 1.
    unfold update at 1. rewrite Quiet. cbn [for_each]. unfold ret at 1.
    rewrite AckCompletedEvents_while_stops.
    2:{ cbn. destruct es; cbn; auto. }
    unfold update at 1.
    match goal with |- context [for_each _ acks ?s] => set (q1 := s) end.
    destruct (IH acks q1) as (q' & R & C & B' & P');
      try assumption; try reflexivity; [lia|].
    exists q'. split; [exact R|]. split; [|auto].
    rewrite C. subst q1. cbn. rewrite <- app_assoc. reflexivity.
Qed.

(** X10. With a client that does not call back, acknowledgments with a known
    result that come in the order of forwarding are reported at once, one for
    one, also when events of the same kind are in flight: after the first [k]
    acknowledgments the client has been told of the first [k] events and of no
    other, the i-th with its latency merged in and with the source and the
    result of the i-th acknowledgment, and the buffer holds the events after
    the k-th, all unknown; after the last one the buffer is empty. *)
Theorem acks_in_forwarding_order_report_one_for_one :
  (forall calls, reentrant_acks calls = []) ->
  forall (n : nat) (es : list Gesture) (acks : list Ack) (q0 q1 : GestureEventQueue),
    sent_events_awaiting_ack_ q0 = [] ->
    processing_acks_ q0 = false ->
    for_each ForwardGestureEvent es q0 = Done tt q1 ->
    map (@msg_type _) acks = map (fun e => GetType (event e)) es ->
    Forall (fun m => is_unknown (msg_result m) = false) acks ->
    forall k : nat,
      k <= length acks ->
      exists q2,
        for_each (ProcessGestureAck (S (S n))) (firstn k acks) q1 = Done tt q2 /\
        client_ q2 = client_ q1
                       ++ map (fun em => report_acknowledged (fst em) (snd em))
                              (combine es (firstn k acks)) /\
        length (combine es (firstn k acks)) = k /\
        sent_events_awaiting_ack_ q2 = map (@AwaitingAck _) (skipn k es) /\
        (k = length acks -> sent_events_awaiting_ack_ q2 = []).
Proof.
  intros Quiet n es acks q0 q1 B0 P0 F Kinds Known k Hk.
  destruct (forward_all_fields es q0 q1 F) as (B1 & _ & P1).
  rewrite B0 in B1. cbn [app] in B1.
  assert (Len : length acks = length es).
  { apply (f_equal (@length _)) in Kinds. rewrite !length_map in Kinds. exact Kinds. }
  assert (Lk : length (firstn k acks) = k) by (rewrite length_firstn; lia).
  destruct (in_order_acks_run n Quiet es (firstn k acks) q1) as (q2 & R & C & B2 & _).
  - congruence.
  - exact B1.
  - lia.
  - rewrite Lk, <- !firstn_map, Kinds. reflexivity.
  - apply Forall_front. exact Known.
  - rewrite Lk in B2. exists q2. split; [exact R|]. split; [exact C|].
    split; [rewrite length_combine, Lk; lia|]. split; [exact B2|].
    intros ->. rewrite B2, Len, skipn_all. reflexivity.
Qed.

Lemma scroll_update_step (e : Gesture) (q : GestureEventQueue) :
  (0 < debounce_interval_ q)%Z ->
  FlingController.fling_in_progress (fling_controller_ q) = false ->
  GetType (event e) = kGestureScrollUpdate ->
  DebounceOrForwardEvent e q
  = Done true
      (forwarded e
         (with_debouncing_queue []
            (with_scrolling_in_progress true
               (with_timer (debounce_deferring_timer_ q
                              ++ [if scrolling_in_progress_ q then TimerReset
                                  else TimerStart (debounce_interval_ q)]) q)))).
Proof.
  intros I F K. rewrite DebounceOrForwardEvent_eq. unfold is_fling_kind. rewrite K.
  replace (DCHECK_IS_ON && _) with false by (destruct DCHECK_IS_ON; reflexivity).
  unfold ShouldForwardForBounceReduction. rewrite F, K.
  destruct (Z.leb_spec (debounce_interval_ q) 0); [lia|].
  unfold bind, call_timer, update, ret.
  destruct (scrolling_in_progress_ q); reflexivity.
Qed.

Lemma scroll_updates_run (nesting : nat) (es : list Gesture) :
  Forall (fun e => GetType (event e) = kGestureScrollUpdate) es ->
  forall q : GestureEventQueue,
    (0 < debounce_interval_ q)%Z ->
    FlingController.fling_in_progress (fling_controller_ q) = false ->
    scrolling_in_progress_ q = true ->
    exists q',
      perform_all nesting (map CallDebounceOrForwardEvent es) q = Done tt q' /\
      debounce_deferring_timer_ q'
      = debounce_deferring_timer_ q ++ repeat TimerReset (length es) /\
      client_ q' = client_ q ++ map (@SendGestureEventImmediately _) es /\
      sent_events_awaiting_ack_ q'
      = sent_events_awaiting_ack_ q ++ map (@AwaitingAck _) es /\
      scrolling_in_progress_ q' = true /\
      (es <> [] -> debouncing_deferral_queue_ q' = []).
Proof.
  unfold perform_all.
  induction 1 as [|e es K _ IH]; intros q I F S; cbn [map for_each length repeat].
  - exists q. unfold ret. rewrite !app_nil_r. repeat split; congruence.
  - unfold bind at 1. unfold perform at 1. unfold bind at 1.
    rewrite (scroll_update_step e q I F K), S. unfold ret at 1.
    match goal with |- context [for_each _ _ ?s] => set (q1 := s) end.
    destruct (IH q1) as (q' & R & T & C & B & S' & _).
    + exact I.
    + subst q1. cbn. unfold observe_scroll. rewrite K. cbn. exact F.
    + reflexivity.
    + exists q'. split; [exact R|]. subst q1.
      cbn [forwarded with_client with_fling_controller with_sent_events
             with_debouncing_queue with_scrolling_in_progress with_timer
             debounce_deferring_timer_ client_ sent_events_awaiting_ack_] in T, C, B.
      rewrite T, C, B, <- !app_assoc. cbn [app].
      split; [reflexivity|]. split; [reflexivity|]. split; [reflexivity|].
      split; [exact S'|]. intros _.
      destruct es as [|e' es'].
      * cbn [map for_each] in R. unfold ret in R. inversion R; subst. reflexivity.
      * destruct (IH (forwarded e
                        (with_debouncing_queue []
                           (with_scrolling_in_progress true
                              (with_timer (debounce_deferring_timer_ q ++ [TimerReset]) q)))))
          as (q2 & R2 & _ & _ & _ & _ & E2).
        -- exact I.
        -- cbn. unfold observe_scroll. rewrite K. cbn. exact F.
        -- reflexivity.
        -- rewrite R in R2. inversion R2; subst. apply E2. discriminate.
Qed.

(** X11. A run of scroll-updates that finds the queue idle, under a positive
    debounce interval and without a fling, starts the timer once, for the
    debounce interval, and resets it for every further update; every update is
    sent and appended to the buffer, in order, the flag is set and the
    debouncing queue is empty at the end. *)
Theorem scroll_updates_start_the_timer_once :
  forall (nesting : nat) (e : Gesture) (es : list Gesture) (q : GestureEventQueue),
    (0 < debounce_interval_ q)%Z ->
    FlingController.fling_in_progress (fling_controller_ q) = false ->
    scrolling_in_progress_ q = false ->
    Forall (fun x => GetType (event x) = kGestureScrollUpdate) (e :: es) ->
    exists q',
      perform_all nesting (map CallDebounceOrForwardEvent (e :: es)) q = Done tt q' /\
      debounce_deferring_timer_ q'
      = debounce_deferring_timer_ q
          ++ TimerStart (debounce_interval_ q) :: repeat TimerReset (length es) /\
      client_ q' = client_ q ++ map (@SendGestureEventImmediately _) (e :: es) /\
      sent_events_awaiting_ack_ q'
      = sent_events_awaiting_ack_ q ++ map (@AwaitingAck _) (e :: es) /\
      scrolling_in_progress_ q' = true /\
      debouncing_deferral_queue_ q' = [].
Proof.
  intros nesting e es q I F S All. inversion All as [|? ? K Rest]; subst.
  unfold perform_all. cbn [map for_each]. unfold bind at 1. unfold perform at 1.
  unfold bind at 1. rewrite (scroll_update_step e q I F K), S. unfold ret at 1.
  match goal with |- context [for_each _ _ ?s] => set (q1 := s) end.
  destruct (scroll_updates_run nesting es Rest q1) as (q' & R & T & C & B & S' & E).
  - exact I.
  - subst q1. cbn. unfold observe_scroll. rewrite K. cbn. exact F.
  - reflexivity.
  - exists q'. split; [exact R|]. subst q1.
    cbn [forwarded with_client with_fling_controller with_sent_events
           with_debouncing_queue with_scrolling_in_progress with_timer
           debounce_deferring_timer_ client_ sent_events_awaiting_ack_] in T, C, B.
    rewrite T, C, B, <- !app_assoc. cbn [app map].
    split; [reflexivity|]. split; [reflexivity|]. split; [reflexivity|].
    split; [exact S'|].
    destruct es as [|e' es'].
    + unfold perform_all in R. cbn [map for_each] in R. unfold ret in R.
      inversion R; subst. reflexivity.
    + apply E. discriminate.
Qed.

End Queue.

Arguments DCheckFailed {LatencyInfo Fling A} q.
Arguments OutOfBudget {LatencyInfo Fling A}.

(** ** The claims on concrete queues *)

Import Examples.

Section DebugBuildRuns.
#[local] Existing Instance DebugBuild.
#[local] Existing Instance EagerClient.

(** Scroll-begin, scroll-update and scroll-end are forwarded and acknowledged
    in the order end, begin, update, to a client that acknowledges update and
    end itself while it is told of begin. *)
Lemma acks_released_in_forwarding_order_witness :
  let es := [gesture kGestureScrollBegin 1; gesture kGestureScrollUpdate 2;
             gesture kGestureScrollEnd 3] in
  let acks := [ack kGestureScrollEnd INPUT_EVENT_ACK_STATE_CONSUMED;
               ack kGestureScrollBegin INPUT_EVENT_ACK_STATE_NOT_CONSUMED;
               ack kGestureScrollUpdate INPUT_EVENT_ACK_STATE_CONSUMED] in
  let q0 := GestureEventQueue_new {| debounce_interval := 0; fling_config := false |} in
  let q1 := match for_each ForwardGestureEvent es q0 with
            | Done _ q => q
            | _ => q0
            end in
  exists q2 rel,
    for_each (ProcessGestureAck 2) acks q1 = Done tt q2 /\
    acks_reported (client_ q2) = acks_reported (client_ q0) ++ rel /\
    map fst rel ++ buffered_events (sent_events_awaiting_ack_ q2)
    = map (@event _) es /\
    Forall (fun r => is_unknown (snd r) = false) rel /\
    drained (sent_events_awaiting_ack_ q2) /\
    (@nil (AckMessage (list nat)) = [] ->
     sent_events_awaiting_ack_ q2 = [] /\ map fst rel = map (@event _) es).
Proof.
  intros es acks q0 q1.
  apply (acks_released_in_forwarding_order 2 es acks q0 q1).
  - lia.
  - reflexivity.
  - reflexivity.
  - vm_compute. reflexivity.
  - vm_compute. repeat constructor; simpl; intuition discriminate.
  - exact (Permutation_cons_append [kGestureScrollBegin; kGestureScrollUpdate] kGestureScrollEnd).
  - repeat constructor.
  - vm_compute. reflexivity.
Defined.

(** A tap arrives at a queue with a debounce interval of 100 ms, right after
    a scroll-update. *)
Lemma deferred_while_scrolling_then_flushed_witness :
  let q := match perform_all 2 [CallDebounceOrForwardEvent (gesture kGestureScrollUpdate 1)]
                   (GestureEventQueue_new
                      {| debounce_interval := 100000; fling_config := false |}) with
           | Done _ q => q
           | _ => GestureEventQueue_new {| debounce_interval := 100000; fling_config := false |}
           end in
  let e := gesture kGestureTap 2 in
  DebounceOrForwardEvent e q
  = Done false (with_debouncing_queue (debouncing_deferral_queue_ q ++ [e]) q) /\
  sent_events (client_ q) = [gesture kGestureScrollUpdate 1] /\
  exists q2,
    SendScrollEndingEventsNow
      (with_debouncing_queue (debouncing_deferral_queue_ q ++ [e]) q) = Done tt q2 /\
    scrolling_in_progress_ q2 = false /\
    debouncing_deferral_queue_ q2 = [] /\
    sent_events (client_ q2) = [gesture kGestureScrollUpdate 1; e].
Proof.
  intros q e.
  assert (R : reachable q).
  { exists {| debounce_interval := 100000; fling_config := false |},
      [CallDebounceOrForwardEvent (gesture kGestureScrollUpdate 1)], 2.
    split; [lia | vm_compute; reflexivity]. }
  destruct (deferred_while_scrolling_then_flushed e q R)
    as (Deferred & q2 & Fired & Flag & Empty & Client & _ & _ & All);
    try (vm_compute; reflexivity); try (vm_compute; discriminate).
  split; [exact Deferred|]. split; [vm_compute; reflexivity|].
  exists q2. split; [exact Fired|]. split; [exact Flag|]. split; [exact Empty|].
  rewrite Client, All by reflexivity. vm_compute. reflexivity.
Defined.

(** A fling is in progress and a scroll-end arrives while events are held in
    the debouncing queue. *)
Lemma forwarded_when_disabled_or_flinging_witness :
  let q := with_debouncing_queue [gesture kGestureTap 2]
             (with_scrolling_in_progress true
                (GestureEventQueue_new
                   {| debounce_interval := 100000; fling_config := true |})) in
  let e := gesture kGestureScrollEnd 3 in
  DebounceOrForwardEvent e q = Done true (forwarded e q) /\
  sent_events_awaiting_ack_ (forwarded e q)
  = sent_events_awaiting_ack_ q ++ [AwaitingAck e] /\
  client_ (forwarded e q) = client_ q ++ [SendGestureEventImmediately e].
Proof.
  intros q e. apply (forwarded_when_disabled_or_flinging e q).
  - reflexivity.
  - right. reflexivity.
Defined.

Lemma fling_bypass_keeps_debounce_state_witness :
  let q := with_debouncing_queue [gesture kGestureTap 2]
             (with_scrolling_in_progress true
                (GestureEventQueue_new
                   {| debounce_interval := 100000; fling_config := true |})) in
  let e := gesture kGestureScrollUpdate 3 in
  ShouldForwardForBounceReduction e q = Done true q /\
  debouncing_deferral_queue_ q = [gesture kGestureTap 2].
Proof.
  intros q e. split; [|reflexivity].
  apply (fling_bypass_keeps_debounce_state e q). reflexivity.
Defined.

(** A fling start handed to the debounce stage and to the forward path of a
    build that checks: both die with the new queue untouched. *)
Lemma fling_kinds_guarded_by_assertion_only_witness :
  let q := GestureEventQueue_new {| debounce_interval := 0; fling_config := false |} in
  let e := gesture kGestureFlingStart 1 in
  (exists f, FlingControllerFilterEvent e q = Done true (with_fling_controller f q)) /\
  DebounceOrForwardEvent e q = DCheckFailed q /\
  ForwardGestureEvent e q = DCheckFailed q.
Proof.
  intros q e.
  destruct (fling_kinds_guarded_by_assertion_only e q) as (Filter & Checked & _).
  - reflexivity.
  - split; [exact Filter|]. apply Checked. reflexivity.
Defined.

Lemma scroll_update_restarts_debounce_witness :
  let q := with_debouncing_queue [gesture kGestureTap 2]
             (with_scrolling_in_progress true
                (GestureEventQueue_new
                   {| debounce_interval := 100000; fling_config := false |})) in
  let e := gesture kGestureScrollUpdate 3 in
  exists q',
    DebounceOrForwardEvent e q = Done true q' /\
    debounce_deferring_timer_ q' = [TimerReset] /\
    debouncing_deferral_queue_ q' = [] /\
    sent_events (client_ q') = [e].
Proof.
  intros q e.
  destruct (scroll_update_restarts_debounce e q)
    as (q' & Run & Timer & _ & Empty & _ & _ & Client & _).
  - reflexivity.
  - reflexivity.
  - reflexivity.
  - exists q'. split; [exact Run|]. split; [exact Timer|]. split; [exact Empty|].
    rewrite Client. reflexivity.
Defined.

(** Three entries, the first and the last with a known state; the client
    acknowledges the second one while it is told of the first. *)
Lemma nested_release_is_noop_witness :
  let known (t : WebInputEventType) (n : Z) :=
    {| info := gesture t n; ack_source := ACK_SOURCE_BROWSER;
       ack_state := INPUT_EVENT_ACK_STATE_CONSUMED |} in
  let q := with_sent_events
             [known kGestureScrollBegin 1%Z; AwaitingAck (gesture kGestureScrollUpdate 2);
              known kGestureScrollEnd 3%Z]
             (GestureEventQueue_new {| debounce_interval := 0; fling_config := false |}) in
  let m := ack kGestureScrollUpdate INPUT_EVENT_ACK_STATE_CONSUMED in
  AckCompletedEvents 1 (with_processing_acks true q)
  = Done tt (with_processing_acks true q) /\
  exists q' rel,
    AckCompletedEvents 1 q = Done tt q' /\
    processing_acks_ q' = false /\
    drained (sent_events_awaiting_ack_ q') /\
    client_ q' = client_ q ++ map (@report_of _) rel /\
    Forall (fun p => is_unknown (ack_state p) = false) rel /\
    buffered_events rel ++ buffered_events (sent_events_awaiting_ack_ q')
    = buffered_events (sent_events_awaiting_ack_ q).
Proof.
  intros known q m. split.
  - apply (nested_release_is_noop 1 m (with_processing_acks true q)). reflexivity.
  - apply (nested_release_is_noop 0 m q). reflexivity.
Defined.

(** The acknowledgment of a scroll-end finds its entry behind two others. *)
Lemma ack_marks_first_waiting_entry_witness :
  let q := with_processing_acks true
             (with_sent_events
                [AwaitingAck (gesture kGestureScrollBegin 1);
                 AwaitingAck (gesture kGestureScrollUpdate 2);
                 AwaitingAck (gesture kGestureScrollEnd 3);
                 AwaitingAck (gesture kGestureScrollEnd 4)]
                (GestureEventQueue_new {| debounce_interval := 0; fling_config := false |})) in
  let m := ack kGestureScrollEnd INPUT_EVENT_ACK_STATE_CONSUMED in
  record_ack m (sent_events_awaiting_ack_ q)
  = [AwaitingAck (gesture kGestureScrollBegin 1);
     AwaitingAck (gesture kGestureScrollUpdate 2);
     {| info := {| event := {| GetType := kGestureScrollEnd; payload := 3 |};
                   latency := [1] |};
        ack_source := ACK_SOURCE_COMPOSITOR_THREAD;
        ack_state := INPUT_EVENT_ACK_STATE_CONSUMED |};
     AwaitingAck (gesture kGestureScrollEnd 4)].
Proof.
  intros q m.
  refine (proj1 (ack_marks_first_waiting_entry 0 m q
                   [AwaitingAck (gesture kGestureScrollBegin 1);
                    AwaitingAck (gesture kGestureScrollUpdate 2)]
                   [AwaitingAck (gesture kGestureScrollEnd 4)]
                   (AwaitingAck (gesture kGestureScrollEnd 3)) _ _ _)).
  - reflexivity.
  - repeat constructor.
  - reflexivity.
Defined.

(** An acknowledgment for a new queue, and one of a kind that is not in the
    buffer of a queue reached by one forward. *)
Lemma unexpected_or_unmatched_ack_is_ignored_witness :
  let q0 := GestureEventQueue_new {| debounce_interval := 0; fling_config := false |} in
  let q := match perform_all 2 [CallDebounceOrForwardEvent (gesture kGestureTap 1)] q0 with
           | Done _ q => q
           | _ => q0
           end in
  let m := ack kGestureScrollEnd INPUT_EVENT_ACK_STATE_CONSUMED in
  (exists q',
      ProcessGestureAck 1 m q0 = Done tt q' /\
      q' = with_dlog (dlog_ q0 ++ [kGestureScrollEnd]) q0 /\
      sent_events_awaiting_ack_ q' = [] /\
      client_ q' = client_ q0) /\
  ProcessGestureAck 2 m q = Done tt q.
Proof.
  intros q0 q m. split.
  - exact (proj1 (unexpected_or_unmatched_ack_is_ignored 0 m q0) eq_refl).
  - refine (proj2 (unexpected_or_unmatched_ack_is_ignored 0 m q) _ _ _).
    + vm_compute. discriminate.
    + vm_compute. repeat constructor.
    + right. exists {| debounce_interval := 0; fling_config := false |},
        [CallDebounceOrForwardEvent (gesture kGestureTap 1)], 2.
      split; [lia | vm_compute; reflexivity].
Defined.

(** Two events are stashed, with a forward, a timer firing and an
    acknowledgment in between. *)
Lemma take_returns_stashed_events_witness :
  let q0 := GestureEventQueue_new {| debounce_interval := 0; fling_config := false |} in
  let cs := [CallQueueDeferredEvents (gesture kGestureTap 1);
             CallDebounceOrForwardEvent (gesture kGestureScrollBegin 2);
             TimerFires;
             CallQueueDeferredEvents (gesture kGestureLongPress 3);
             CallProcessGestureAck (ack kGestureScrollBegin INPUT_EVENT_ACK_STATE_CONSUMED)] in
  let q1 := match perform_all 2 cs q0 with
            | Done _ q => q
            | _ => q0
            end in
  exists q2,
    TakeDeferredEvents q1
    = Done [gesture kGestureTap 1; gesture kGestureLongPress 3] q2 /\
    deferred_gesture_queue_ q2 = [] /\
    TakeDeferredEvents q2 = Done [] q2.
Proof.
  intros q0 cs q1.
  apply (take_returns_stashed_events 0 cs q0 q1).
  - reflexivity.
  - repeat constructor; discriminate.
  - vm_compute. reflexivity.
Defined.

End DebugBuildRuns.

Section ReleaseBuildRuns.
#[local] Existing Instance ReleaseBuild.
#[local] Existing Instance QuietClient.

(** C2 as stated fails: in a build without [DCHECK], a fling start handed to
    [DebounceOrForwardEvent] is sent to the client and enters the buffer. *)
Lemma fling_start_is_forwarded_without_dcheck :
  let q := GestureEventQueue_new {| debounce_interval := 0; fling_config := false |} in
  let e := gesture kGestureFlingStart 1 in
  exists q',
    DebounceOrForwardEvent e q = Done true q' /\
    client_ q' = [SendGestureEventImmediately e] /\
    sent_events_awaiting_ack_ q' = [AwaitingAck e].
Proof.
  eexists. split; [vm_compute; reflexivity|]. split; reflexivity.
Qed.

(** C4 as stated fails: the interval of -1 microsecond is not zero, no fling
    is in progress and the flag is unset, and a scroll-update starts no timer
    and sets no flag. *)
Lemma scroll_update_under_negative_interval :
  let q := GestureEventQueue_new {| debounce_interval := -1; fling_config := false |} in
  let e := gesture kGestureScrollUpdate 1 in
  debounce_interval_ q <> 0%Z /\
  FlingController.fling_in_progress (fling_controller_ q) = false /\
  scrolling_in_progress_ q = false /\
  exists q',
    DebounceOrForwardEvent e q = Done true q' /\
    debounce_deferring_timer_ q' = [] /\
    scrolling_in_progress_ q' = false.
Proof.
  split; [discriminate|]. split; [reflexivity|]. split; [reflexivity|].
  eexists. split; [vm_compute; reflexivity|]. split; reflexivity.
Qed.

End ReleaseBuildRuns.

(** ** The scenarios of the specification, run *)

Section Scenarios.
#[local] Existing Instance DebugBuild.
#[local] Existing Instance QuietClient.

#[local] Abbreviation A := (gesture kGestureScrollBegin 1).
#[local] Abbreviation B := (gesture kGestureScrollUpdate 2).
#[local] Abbreviation C := (gesture kGestureScrollEnd 3).
#[local] Abbreviation consumed t := (ack t INPUT_EVENT_ACK_STATE_CONSUMED).
#[local] Abbreviation fresh interval :=
  (GestureEventQueue_new (LatencyInfo := list nat)
     {| debounce_interval := interval; fling_config := false |}).

(** What the client has been told of, by kind, after a sequence of calls. *)
#[local] Abbreviation told cl interval cs :=
  (match perform_all (CL := cl) 2 cs (fresh interval) with
   | Done _ q => Some (map (fun r => GetType (fst r)) (acks_reported (client_ q)))
   | _ => None
   end).

(** Forward A, B, C; acknowledge C, then A, then B. *)
Example ack_of_last_event_releases_nothing :
  told QuietClient 0
    [CallDebounceOrForwardEvent A; CallDebounceOrForwardEvent B;
     CallDebounceOrForwardEvent C;
     CallProcessGestureAck (consumed kGestureScrollEnd)]
  = Some [].
Proof. vm_compute. reflexivity. Qed.

Example ack_of_front_event_releases_it :
  told QuietClient 0
    [CallDebounceOrForwardEvent A; CallDebounceOrForwardEvent B;
     CallDebounceOrForwardEvent C;
     CallProcessGestureAck (consumed kGestureScrollEnd);
     CallProcessGestureAck (consumed kGestureScrollBegin)]
  = Some [kGestureScrollBegin].
Proof. vm_compute. reflexivity. Qed.

Example ack_of_middle_event_releases_the_rest :
  told QuietClient 0
    [CallDebounceOrForwardEvent A; CallDebounceOrForwardEvent B;
     CallDebounceOrForwardEvent C;
     CallProcessGestureAck (consumed kGestureScrollEnd);
     CallProcessGestureAck (consumed kGestureScrollBegin);
     CallProcessGestureAck (consumed kGestureScrollUpdate)]
  = Some [kGestureScrollBegin; kGestureScrollUpdate; kGestureScrollEnd].
Proof. vm_compute. reflexivity. Qed.

(** The same with a client that acknowledges B and C while it is told of A:
    the order is the same and nothing is reported twice. *)
Example reentrant_client_sees_the_same_order :
  told EagerClient 0
    [CallDebounceOrForwardEvent A; CallDebounceOrForwardEvent B;
     CallDebounceOrForwardEvent C;
     CallProcessGestureAck (consumed kGestureScrollBegin)]
  = Some [kGestureScrollBegin; kGestureScrollUpdate; kGestureScrollEnd].
Proof. vm_compute. reflexivity. Qed.

(** One activation of [ProcessGestureAck] is not enough for that client. *)
Example reentrant_client_needs_two_activations :
  perform_all (CL := EagerClient) 1
    [CallDebounceOrForwardEvent A; CallDebounceOrForwardEvent B;
     CallProcessGestureAck (consumed kGestureScrollBegin)] (fresh 0)
  = OutOfBudget.
Proof. vm_compute. reflexivity. Qed.

(** Debounce coalescing: scroll-update, tap, scroll-update within the quiet
    period of 100 ms. The tap is sent nowhere and is in no queue. *)
Example tap_between_scroll_updates_is_dropped :
  exists q,
    perform_all 2
      [CallDebounceOrForwardEvent B; CallDebounceOrForwardEvent (gesture kGestureTap 9);
       CallDebounceOrForwardEvent (gesture kGestureScrollUpdate 4)] (fresh 100000)
    = Done tt q /\
    sent_events (client_ q) = [B; gesture kGestureScrollUpdate 4] /\
    debouncing_deferral_queue_ q = [] /\
    deferred_gesture_queue_ q = [] /\
    debounce_deferring_timer_ q = [TimerStart 100000; TimerReset].
Proof. eexists. split; [vm_compute; reflexivity|]. repeat split. Qed.

(** Debounce timer: scroll-update, tap, then the timer fires. *)
Example tap_is_sent_when_the_timer_fires :
  exists q,
    perform_all 2
      [CallDebounceOrForwardEvent B; CallDebounceOrForwardEvent (gesture kGestureTap 9);
       TimerFires] (fresh 100000)
    = Done tt q /\
    sent_events (client_ q) = [B; gesture kGestureTap 9] /\
    scrolling_in_progress_ q = false.
Proof. eexists. split; [vm_compute; reflexivity|]. repeat split. Qed.

(** The same with a fling controller whose filter takes the tap. *)
Example tap_taken_by_the_filter_is_not_sent :
  exists q,
    perform_all (FC := TapEatingFling) 2
      [CallDebounceOrForwardEvent B; CallDebounceOrForwardEvent (gesture kGestureTap 9);
       CallDebounceOrForwardEvent (gesture kGestureLongPress 5);
       TimerFires] (fresh 100000)
    = Done tt q /\
    sent_events (client_ q) = [B; gesture kGestureLongPress 5] /\
    debouncing_deferral_queue_ q = [].
Proof. eexists. split; [vm_compute; reflexivity|]. repeat split. Qed.

(** Pinch independence: a pinch-begin is sent while scrolling is in
    progress. *)
Example pinch_is_sent_while_scrolling :
  exists q,
    perform_all 2
      [CallDebounceOrForwardEvent B;
       CallDebounceOrForwardEvent (gesture kGesturePinchBegin 6)] (fresh 100000)
    = Done tt q /\
    sent_events (client_ q) = [B; gesture kGesturePinchBegin 6] /\
    scrolling_in_progress_ q = true.
Proof. eexists. split; [vm_compute; reflexivity|]. repeat split. Qed.

End Scenarios.

(** ** The further properties on concrete queues *)

Section FurtherRuns.
#[local] Existing Instance DebugBuild.
#[local] Existing Instance QuietClient.

#[local] Abbreviation new_queue interval :=
  (GestureEventQueue_new (LatencyInfo := list nat)
     {| debounce_interval := interval; fling_config := false |}).

#[local] Abbreviation after cs interval :=
  (match perform_all 2 cs (new_queue interval) with
   | Done _ q => q
   | _ => new_queue interval
   end).

(** A tap while scrolling is in progress. *)
Lemma debounce_forwards_or_defers_witness :
  let q := after [CallDebounceOrForwardEvent (gesture kGestureScrollUpdate 1)] 100000 in
  let e := gesture kGestureTap 2 in
  DebounceOrForwardEvent e q = Done false (with_debouncing_queue [e] q) /\
  (0 < debounce_interval_ q)%Z /\
  scrolling_in_progress_ q = true.
Proof.
  intros q e.
  assert (R : DebounceOrForwardEvent e q = Done false (with_debouncing_queue [e] q))
    by (vm_compute; reflexivity).
  destruct (debounce_forwards_or_defers e false q _ R) as ((When & _) & _).
  destruct (When eq_refl) as (I & _ & S & _). auto.
Defined.

(** A pinch-update while scrolling is in progress and a tap is held. *)
Lemma pinch_is_never_debounced_witness :
  let q := after [CallDebounceOrForwardEvent (gesture kGestureScrollUpdate 1);
                  CallDebounceOrForwardEvent (gesture kGestureTap 2)] 100000 in
  let e := gesture kGesturePinchUpdate 3 in
  DebounceOrForwardEvent e q = Done true (forwarded e q) /\
  debouncing_deferral_queue_ (forwarded e q) = [gesture kGestureTap 2].
Proof.
  intros q e.
  destruct (pinch_is_never_debounced e q) as (R & _ & _ & D & _).
  - reflexivity.
  - split; [exact R|]. rewrite D. vm_compute. reflexivity.
Defined.

(** A tap that the fling controller lets through. *)
Lemma filtered_event_passes_the_assertions_witness :
  let q := new_queue 0 in
  let e := gesture kGestureTap 1 in
  is_fling_kind (GetType (event e)) = false /\
  ForwardGestureEvent e q = Done tt (forwarded e q).
Proof.
  intros q e.
  destruct (filtered_event_passes_the_assertions e q q) as (K & _ & _ & F & _).
  - vm_compute. reflexivity.
  - auto.
Defined.

(** Two scroll-updates and a tap are sent; the second update is acknowledged
    first, then the first. *)
Lemma acknowledgments_follow_the_sends_witness :
  let q := after [CallDebounceOrForwardEvent (gesture kGestureScrollUpdate 1);
                  CallDebounceOrForwardEvent (gesture kGestureScrollUpdate 2);
                  CallDebounceOrForwardEvent (gesture kGestureTap 3);
                  CallProcessGestureAck (ack kGestureTap INPUT_EVENT_ACK_STATE_CONSUMED);
                  CallProcessGestureAck
                    (ack kGestureScrollUpdate INPUT_EVENT_ACK_STATE_NOT_CONSUMED)] 0 in
  map (@event _) (sent_events (client_ q))
  = map fst (acks_reported (client_ q))
      ++ buffered_events (sent_events_awaiting_ack_ q) /\
  map fst (acks_reported (client_ q)) = [{| GetType := kGestureScrollUpdate; payload := 1 |}].
Proof.
  intros q.
  destruct (acknowledgments_follow_the_sends q) as (Books & _).
  - exists {| debounce_interval := 0; fling_config := false |},
      [CallDebounceOrForwardEvent (gesture kGestureScrollUpdate 1);
       CallDebounceOrForwardEvent (gesture kGestureScrollUpdate 2);
       CallDebounceOrForwardEvent (gesture kGestureTap 3);
       CallProcessGestureAck (ack kGestureTap INPUT_EVENT_ACK_STATE_CONSUMED);
       CallProcessGestureAck
         (ack kGestureScrollUpdate INPUT_EVENT_ACK_STATE_NOT_CONSUMED)], 2.
    split; [lia | vm_compute; reflexivity].
  - split; [exact Books | vm_compute; reflexivity].
Defined.

Lemma checking_build_keeps_fling_kinds_out_witness :
  let q := after [CallFlingControllerFilterEvent (gesture kGestureFlingStart 1);
                  CallDebounceOrForwardEvent (gesture kGestureScrollUpdate 2);
                  CallDebounceOrForwardEvent (gesture kGestureTap 3)] 100000 in
  no_fling_kind (sent_events (client_ q)) /\
  no_fling_kind (debouncing_deferral_queue_ q).
Proof.
  intros q.
  destruct (checking_build_keeps_fling_kinds_out q) as (Sent & _ & Held).
  - reflexivity.
  - exists {| debounce_interval := 100000; fling_config := false |},
      [CallFlingControllerFilterEvent (gesture kGestureFlingStart 1);
       CallDebounceOrForwardEvent (gesture kGestureScrollUpdate 2);
       CallDebounceOrForwardEvent (gesture kGestureTap 3)], 2.
    split; [lia | vm_compute; reflexivity].
  - auto.
Defined.

Lemma debounce_stage_stays_consistent_witness :
  let q := after [CallDebounceOrForwardEvent (gesture kGestureScrollUpdate 1);
                  CallDebounceOrForwardEvent (gesture kGestureTap 2);
                  CallDebounceOrForwardEvent (gesture kGestureScrollUpdate 3);
                  TimerFires;
                  CallDebounceOrForwardEvent (gesture kGestureScrollUpdate 4)] 100000 in
  scrolling_in_progress_ q = true /\
  debounce_deferring_timer_ q <> [] /\
  hd TimerReset (debounce_deferring_timer_ q) = TimerStart (debounce_interval_ q).
Proof.
  intros q.
  destruct (debounce_stage_stays_consistent q) as (_ & Armed & First & _).
  - exists {| debounce_interval := 100000; fling_config := false |},
      [CallDebounceOrForwardEvent (gesture kGestureScrollUpdate 1);
       CallDebounceOrForwardEvent (gesture kGestureTap 2);
       CallDebounceOrForwardEvent (gesture kGestureScrollUpdate 3);
       TimerFires;
       CallDebounceOrForwardEvent (gesture kGestureScrollUpdate 4)], 2.
    split; [lia | vm_compute; reflexivity].
  - assert (S : scrolling_in_progress_ q = true) by (vm_compute; reflexivity).
    destruct (Armed S) as (_ & T). auto.
Defined.

(** The acknowledgment of the scroll-end comes in before that of the
    scroll-begin in front of it. *)
Lemma early_ack_is_kept_for_later_witness :
  let q := after [CallDebounceOrForwardEvent (gesture kGestureScrollBegin 1);
                  CallDebounceOrForwardEvent (gesture kGestureScrollEnd 2)] 0 in
  let m := ack kGestureScrollEnd INPUT_EVENT_ACK_STATE_CONSUMED in
  exists q',
    ProcessGestureAck 2 m q = Done tt q' /\
    client_ q' = client_ q /\
    map (fun p => ack_state p) (sent_events_awaiting_ack_ q')
    = [INPUT_EVENT_ACK_STATE_UNKNOWN; INPUT_EVENT_ACK_STATE_CONSUMED].
Proof.
  intros q m. eexists. split.
  - apply (early_ack_is_kept_for_later 0 m q
             (AwaitingAck (gesture kGestureScrollBegin 1))
             [AwaitingAck (gesture kGestureScrollEnd 2)]).
    + reflexivity.
    + vm_compute. reflexivity.
    + reflexivity.
    + discriminate.
  - split; reflexivity.
Defined.

(** The timer fires while a tap is held. *)
Lemma timer_returns_the_queue_to_idle_witness :
  let q := after [CallDebounceOrForwardEvent (gesture kGestureScrollUpdate 1);
                  CallDebounceOrForwardEvent (gesture kGestureTap 2)] 100000 in
  let q' := match SendScrollEndingEventsNow q with
            | Done _ q' => q'
            | _ => q
            end in
  scrolling_in_progress_ q' = false /\
  SendScrollEndingEventsNow q' = Done tt q' /\
  DebounceOrForwardEvent (gesture kGestureLongPress 3) q'
  = Done true (forwarded (gesture kGestureLongPress 3) q').
Proof.
  intros q q'.
  destruct (timer_returns_the_queue_to_idle q q') as (S & _ & Again & Next).
  - vm_compute. reflexivity.
  - split; [exact S|]. split; [exact Again|].
    apply Next; [reflexivity | discriminate].
Defined.

(** Three scroll-updates in flight, acknowledged in the order they were
    forwarded: the state after the second acknowledgment. *)
Lemma acks_in_forwarding_order_report_one_for_one_witness :
  let es := [gesture kGestureScrollUpdate 1; gesture kGestureScrollUpdate 2;
             gesture kGestureScrollUpdate 3] in
  let acks := [ack kGestureScrollUpdate INPUT_EVENT_ACK_STATE_CONSUMED;
               ack kGestureScrollUpdate INPUT_EVENT_ACK_STATE_NOT_CONSUMED;
               ack kGestureScrollUpdate INPUT_EVENT_ACK_STATE_CONSUMED] in
  let q1 := match for_each ForwardGestureEvent es (new_queue 0) with
            | Done _ q => q
            | _ => new_queue 0
            end in
  exists q2,
    for_each (ProcessGestureAck 2) (firstn 2 acks) q1 = Done tt q2 /\
    client_ q2 = client_ q1
                   ++ map (fun em => report_acknowledged (fst em) (snd em))
                          (combine es (firstn 2 acks)) /\
    length (combine es (firstn 2 acks)) = 2 /\
    sent_events_awaiting_ack_ q2 = map (@AwaitingAck _) (skipn 2 es) /\
    (2 = length acks -> sent_events_awaiting_ack_ q2 = []).
Proof.
  intros es acks q1.
  apply (acks_in_forwarding_order_report_one_for_one (CL := QuietClient))
    with (q0 := new_queue 0).
  - intros calls. reflexivity.
  - reflexivity.
  - reflexivity.
  - vm_compute. reflexivity.
  - reflexivity.
  - repeat constructor.
  - cbn. lia.
Defined.

Lemma scroll_updates_start_the_timer_once_witness :
  let es := [gesture kGestureScrollUpdate 2; gesture kGestureScrollUpdate 3] in
  exists q',
    perform_all 2 (map (@CallDebounceOrForwardEvent _) (gesture kGestureScrollUpdate 1 :: es))
      (new_queue 100000) = Done tt q' /\
    debounce_deferring_timer_ q' = [TimerStart 100000; TimerReset; TimerReset] /\
    sent_events (client_ q') = gesture kGestureScrollUpdate 1 :: es.
Proof.
  intros es.
  destruct (scroll_updates_start_the_timer_once 2 (gesture kGestureScrollUpdate 1) es
              (new_queue 100000)) as (q' & R & T & C & _).
  - reflexivity.
  - reflexivity.
  - reflexivity.
  - repeat constructor.
  - exists q'. split; [exact R|]. split; [exact T|].
    rewrite C. reflexivity.
Defined.

End FurtherRuns.
